(** * cert_verifier.connectors: transaction lookup and issuer resolution

    A shallow embedding of [cert_verifier/connectors.py]: the transaction
    lookup connectors (mock, fallback, blockchain.info, blockcypher,
    etherscan), the connector factory and [get_issuer_info].

    Python values are the values [json.loads] produces.  Code that can raise
    returns an [outcome]; code that talks to the network or to [logging]
    runs in the monad [Py], which threads a [world] holding the remote side,
    the requests sent so far and the log records written so far. *)

From Stdlib Require Import ZArith List String Ascii Bool Lia.
From Stdlib Require Import Floats.SpecFloat.
From Stdlib Require DecimalString HexadecimalString.
Import ListNotations.
Set Warnings "-register-all".
Local Open Scope string_scope.
Local Open Scope Z_scope.

(** ** Python values *)

(** What [r.json()] returns: None, bool, int, float, str, list and dict.
    A dict is kept as an association list in insertion order; lookups take
    the first binding of a key.  A str is a [string], one [ascii] per
    character. *)
Inductive pyval : Type :=
| PyNone
| PyBool (b : bool)
| PyInt (z : Z)
| PyFloat (f : spec_float)
| PyStr (s : string)
| PyList (l : list pyval)
| PyDict (d : list (string * pyval)).

(** ** Exceptions *)

(** The exception classes the module can meet.  [InvalidTransactionError]
    comes from [cert_verifier.errors]; [RequestException] and
    [JSONDecodeError] stand for what [requests.get] and [r.json()] raise;
    the others are Python's own. *)
Inductive exn_class : Type :=
| InvalidTransactionError
| Exception
| KeyError
| IndexError
| TypeError
| ValueError
| OverflowError
| AttributeError
| RequestException
| JSONDecodeError.

(** An exception object: its class and its argument, which is a message, or
    the list of exceptions that [FallbackConnector.lookup_tx] hands to
    [InvalidTransactionError].  The messages of Python's own exceptions are
    not modelled and are left empty. *)
Inductive exn : Type :=
| Exn (cls : exn_class) (msg : string)
| ExnList (cls : exn_class) (es : list exn).

Definition exn_cls (e : exn) : exn_class :=
  match e with Exn c _ => c | ExnList c _ => c end.

Inductive outcome (A : Type) : Type :=
| Return (a : A)
| Raise (e : exn).
Arguments Return {A} a.
Arguments Raise {A} e.

Definition obind {A B} (o : outcome A) (k : A -> outcome B) : outcome B :=
  match o with Return a => k a | Raise e => Raise e end.

Definition err {A} (c : exn_class) : outcome A := Raise (Exn c EmptyString).

Declare Scope outcome_scope.
Delimit Scope outcome_scope with outcome.
Notation "'let*' x ':=' c 'in' k" := (obind c (fun x => k))
  (at level 10, x name, c at level 100, k at level 200) : outcome_scope.
Local Open Scope outcome_scope.

(** ** Built-in operations on values *)

(** [bool(v)], the test of [if v:] and [not v]. *)
Definition truthy (v : pyval) : bool :=
  match v with
  | PyNone => false
  | PyBool b => b
  | PyInt z => negb (z =? 0)
  | PyFloat (S754_zero _) => false
  | PyFloat _ => true
  | PyStr s => negb (String.eqb s EmptyString)
  | PyList l => match l with [] => false | _ => true end
  | PyDict d => match d with [] => false | _ => true end
  end.

Fixpoint assoc (k : string) (d : list (string * pyval)) : option pyval :=
  match d with
  | [] => None
  | (k', v) :: d' => if String.eqb k k' then Some v else assoc k d'
  end.

Fixpoint contains (k s : string) : bool :=
  String.prefix k s ||
  match s with
  | EmptyString => false
  | String _ s' => contains k s'
  end.

Definition is_str (k : string) (v : pyval) : bool :=
  match v with PyStr s => String.eqb s k | _ => false end.

(** ['k' in v]: key of a dict, element of a list, substring of a str. *)
Definition py_in (k : string) (v : pyval) : outcome bool :=
  match v with
  | PyDict d => Return (match assoc k d with Some _ => true | None => false end)
  | PyList l => Return (existsb (is_str k) l)
  | PyStr s => Return (contains k s)
  | _ => err TypeError
  end.

(** [v['k']] *)
Definition getitem (v : pyval) (k : string) : outcome pyval :=
  match v with
  | PyDict d => match assoc k d with Some x => Return x | None => err KeyError end
  | _ => err TypeError
  end.

Fixpoint string_drop (n : nat) (s : string) : string :=
  match n, s with
  | O, _ => s
  | S n', String _ s' => string_drop n' s'
  | S _, EmptyString => EmptyString
  end.

Definition chars (s : string) : list pyval :=
  map (fun c => PyStr (String c EmptyString)) (list_ascii_of_string s).

(** [v[n]] for a literal index [n >= 0]. *)
Definition getindex (v : pyval) (n : nat) : outcome pyval :=
  match v with
  | PyList l => match nth_error l n with Some x => Return x | None => err IndexError end
  | PyStr s => match nth_error (chars s) n with Some x => Return x | None => err IndexError end
  | PyDict _ => err KeyError
  | _ => err TypeError
  end.

(** [v[n:]] *)
Definition slice_from (v : pyval) (n : nat) : outcome pyval :=
  match v with
  | PyStr s => Return (PyStr (string_drop n s))
  | PyList l => Return (PyList (skipn n l))
  | _ => err TypeError
  end.

(** [o.get('k', default)]; only a dict has the method. *)
Definition py_get (o : pyval) (k : string) (default : pyval) : outcome pyval :=
  match o with
  | PyDict d => Return (match assoc k d with Some x => x | None => default end)
  | _ => err AttributeError
  end.

(** The values [for x in v] runs through. *)
Definition py_iter (v : pyval) : outcome (list pyval) :=
  match v with
  | PyList l => Return l
  | PyDict d => Return (map (fun kv => PyStr (fst kv)) d)
  | PyStr s => Return (chars s)
  | _ => err TypeError
  end.

(** Lists and dicts cannot be put into a set. *)
Definition hashable (v : pyval) : bool :=
  match v with PyList _ | PyDict _ => false | _ => true end.

(** [str(z)] for an int. *)
Definition py_str_of_int (z : Z) : string :=
  DecimalString.NilZero.string_of_int (Z.to_int z).

(** The double nearest to an int, as [float(z)] computes it; a result out
    of range is [OverflowError]. *)
Definition float_of_int (z : Z) : outcome spec_float :=
  match binary_normalize 53 1024 z 0 false with
  | S754_infinity _ => err OverflowError
  | f => Return f
  end.

(** [int(f)] for a float: truncation towards zero. *)
Definition int_of_float (f : spec_float) : outcome Z :=
  match f with
  | S754_zero _ => Return 0
  | S754_infinity _ => err OverflowError
  | S754_nan => err ValueError
  | S754_finite s m e =>
      let a := if 0 <=? e then Z.pos m * 2 ^ e else Z.pos m / 2 ^ (- e) in
      Return (if s then - a else a)
  end.

Definition float_is_zero (f : spec_float) : bool :=
  match f with S754_zero _ => true | _ => false end.

(** [template % arg] for a str argument.  The templates of the module hold
    the conversion [%s] and no other; [%s] takes the argument, which has to
    be used exactly once, and [%%] is a per cent sign.  Any other
    conversion, which only an API key could bring into a template, is not
    modelled and is answered with [ValueError]. *)
Fixpoint py_mod_aux (t : string) (arg : option string) : outcome string :=
  match t with
  | EmptyString =>
      match arg with None => Return EmptyString | Some _ => err TypeError end
  | String "%" (String "s" t') =>
      match arg with
      | Some a => let* r := py_mod_aux t' None in Return (a ++ r)%string
      | None => err TypeError
      end
  | String "%" (String "%" t') =>
      let* r := py_mod_aux t' arg in Return (String "%" r)
  | String "%" _ => err ValueError
  | String c t' => let* r := py_mod_aux t' arg in Return (String c r)
  end.

Definition py_mod (t arg : string) : outcome string := py_mod_aux t (Some arg).

(** [template % v] for a template without any conversion: a dict or list
    operand is taken as a mapping nobody asks anything of, and the template
    comes back unchanged; any other operand is an argument left over. *)
Definition py_mod_plain (t : string) (v : pyval) : outcome string :=
  match v with
  | PyDict _ | PyList _ => Return t
  | _ => err TypeError
  end.

(** ** The world: network and log *)

(** What [requests.get] hands back: the status code and what [r.json()]
    gives, a value or the exception of a body that is not JSON. *)
Record Response : Type := {
  status_code : Z;
  json : outcome pyval
}.

Record request : Type := {
  req_url : pyval;
  req_headers : option (list (string * string));
  req_timeout : option Z
}.

Inductive log_level : Type := ERROR | WARNING | DEBUG.

(** A call of [logging.error], [logging.warning] or [logging.debug]: the
    format and its arguments, kept apart as [logging] keeps them. *)
Record log_record : Type := {
  level : log_level;
  log_msg : string;
  log_args : list pyval
}.

(** The remote side answers the n-th request of a run with a response or
    with the exception [requests.get] raises. *)
Record world : Type := {
  remote : nat -> request -> outcome Response;
  sent : list request;
  logs : list log_record
}.

Definition Py (A : Type) : Type := world -> outcome A * world.

Definition ret {A} (a : A) : Py A := fun w => (Return a, w).
Definition raise {A} (e : exn) : Py A := fun w => (Raise e, w).
Definition lift {A} (o : outcome A) : Py A := fun w => (o, w).
Definition bind {A B} (m : Py A) (k : A -> Py B) : Py B :=
  fun w => match m w with
           | (Return a, w') => k a w'
           | (Raise e, w') => (Raise e, w')
           end.

Declare Scope py_scope.
Delimit Scope py_scope with py.
Notation "x <- c ;; k" := (bind c (fun x => k))
  (at level 61, c at next level, right associativity) : py_scope.
Notation "c ;; k" := (bind c (fun _ => k))
  (at level 61, right associativity) : py_scope.
Local Open Scope py_scope.

Definition requests_get (u : pyval) (h : option (list (string * string)))
    (t : option Z) : Py Response :=
  fun w =>
    let rq := {| req_url := u; req_headers := h; req_timeout := t |} in
    (remote w (List.length (sent w)) rq,
     {| remote := remote w; sent := (sent w ++ [rq])%list; logs := logs w |}).

Definition logging (l : log_level) (m : string) (args : list pyval) : Py unit :=
  fun w =>
    (Return tt,
     {| remote := remote w; sent := sent w;
        logs := (logs w ++ [{| level := l; log_msg := m; log_args := args |}])%list |}).

Definition headers : list (string * string) :=
  [("User-Agent",
    "Mozilla/5.0 (Macintosh; Intel Mac OS X 10_10_1) AppleWebKit/537.36 (KHTML, like Gecko) Chrome/39.0.2171.95 Safari/537.36")].

(** ** Data classes *)

(** Modelled from the spec: the classes [TransactionData], [IssuerKey] and
    [IssuerInfo] of [cert_verifier/__init__.py], which the module only
    constructs.  Each record holds the arguments of the constructor call;
    an optional argument that a call leaves out is [None].  A set is
    represented by the list of the values added to it, in the order of the
    [add] calls, and stands for the set of the members of that list;
    [revoked_addresses] is [None] for Python's None. *)
Record TransactionData : Type := {
  signing_key : pyval;
  script : pyval;
  date_time_utc : pyval;
  revoked_addresses : option (list pyval)
}.

Record IssuerKey : Type := {
  public_key : pyval;
  created : option pyval;
  expires : option pyval;
  revoked : option pyval
}.

Record IssuerInfo : Type := {
  issuer_keys : list IssuerKey;
  revocation_keys : option (list IssuerKey);
  revoked_assertions : option (list pyval)
}.

(** What [lookup_tx] can return: a [TransactionData] object, [True] (the
    mock connector) or [None] (the abstract [parse_tx]). *)
Inductive pyobj : Type :=
| ObjTransactionData (t : TransactionData)
| ObjTrue
| ObjNone.

(** [if response:]; an instance of a plain class is true. *)
Definition obj_truthy (o : pyobj) : bool :=
  match o with ObjNone => false | _ => true end.

(** [revoked.add(x)] *)
Definition set_add (x : pyval) (s : list pyval) : outcome (list pyval) :=
  if hashable x then Return (s ++ [x])%list else err TypeError.

(** Modelled from the spec: the enumerations [Chain], [BlockchainType] and
    [BlockcertVersion] of the library [cert_core]: the chains and versions
    the module names, and the three families of chains (UTXO-style,
    account-based, mock). *)
Inductive BlockchainType : Type := bitcoin | ethereum | mock.

Inductive Chain : Type :=
| bitcoin_mainnet
| bitcoin_testnet
| bitcoin_regtest
| mockchain
| ethereum_mainnet
| ethereum_ropsten.

Definition blockchain_type (c : Chain) : BlockchainType :=
  match c with
  | bitcoin_mainnet | bitcoin_testnet | bitcoin_regtest => bitcoin
  | mockchain => mock
  | ethereum_mainnet | ethereum_ropsten => ethereum
  end.

Definition Chain_eqb (a b : Chain) : bool :=
  match a, b with
  | bitcoin_mainnet, bitcoin_mainnet
  | bitcoin_testnet, bitcoin_testnet
  | bitcoin_regtest, bitcoin_regtest
  | mockchain, mockchain
  | ethereum_mainnet, ethereum_mainnet
  | ethereum_ropsten, ethereum_ropsten => true
  | _, _ => false
  end.

(** ['%s' % chain] *)
Definition Chain_str (c : Chain) : string :=
  match c with
  | bitcoin_mainnet => "Chain.bitcoin_mainnet"
  | bitcoin_testnet => "Chain.bitcoin_testnet"
  | bitcoin_regtest => "Chain.bitcoin_regtest"
  | mockchain => "Chain.mockchain"
  | ethereum_mainnet => "Chain.ethereum_mainnet"
  | ethereum_ropsten => "Chain.ethereum_ropsten"
  end.

Inductive BlockcertVersion : Type := V1_1 | V1_2 | V2_ALPHA | V2.

(** The part of a certificate model that [get_issuer_info] reads:
    [certificate_model.issuer.id], [.version] and [.certificate_json]. *)
Record certificate_model : Type := {
  issuer_id : string;
  version : BlockcertVersion;
  certificate_json : pyval
}.

(** ** Connectors *)

(** The connector classes with the attributes their [__init__] sets.  The
    abstract class starts with [url = None]. *)
Inductive Connector : Type :=
| TransactionLookupConnector (url : option string)
| MockConnector (chain : Chain)
| FallbackConnector (chain : Chain) (connectors : list Connector)
| BlockchainInfoConnector (url : string)
| BlockcypherConnector (url : string)
| EtherscanConnector (url timestamp_url : string).

(** [BlockchainInfoConnector.__init__] *)
Definition BlockchainInfoConnector_init (chain : Chain) : outcome Connector :=
  if Chain_eqb chain bitcoin_testnet then
    Return (BlockchainInfoConnector "https://testnet.blockchain.info/rawtx/%s?cors=true")
  else if Chain_eqb chain bitcoin_mainnet then
    Return (BlockchainInfoConnector "https://blockchain.info/rawtx/%s?cors=true")
  else
    Raise (Exn Exception
      ("unsupported chain (" ++ Chain_str chain ++
       ") requested with BlockchainInfo collector. Currently only testnet and mainnet are supported")).

(** [BlockcypherConnector.__init__] *)
Definition BlockcypherConnector_init (chain : Chain) : outcome Connector :=
  if Chain_eqb chain bitcoin_testnet then
    Return (BlockcypherConnector "http://api.blockcypher.com/v1/btc/test3/txs/%s?limit=100")
  else if Chain_eqb chain bitcoin_mainnet then
    Return (BlockcypherConnector "https://api.blockcypher.com/v1/btc/main/txs/%s?limit=100")
  else
    Raise (Exn Exception
      ("unsupported chain (" ++ Chain_str chain ++
       ") requested with blockcypher collector. Currently only testnet and mainnet are supported")).

(** [FallbackConnector.__init__] *)
Definition FallbackConnector_init (chain : Chain) : outcome Connector :=
  let* a := BlockchainInfoConnector_init chain in
  let* b := BlockcypherConnector_init chain in
  Return (FallbackConnector chain [a; b]).

(** [EtherscanConnector.__init__]; [+] joins str with str only. *)
Definition EtherscanConnector_init (chain : Chain) (api_key : pyval)
    : outcome Connector :=
  let* url_prefix :=
    if Chain_eqb chain ethereum_mainnet then Return "https://api.etherscan.io"
    else if Chain_eqb chain ethereum_ropsten then Return "https://ropsten.etherscan.io"
    else Raise (Exn Exception
      ("unsupported chain (" ++ Chain_str chain ++
       ") requested with Etherscan collector. Currently only mainnet and ropsten are supported")) in
  match api_key with
  | PyStr k =>
      Return (EtherscanConnector
        (url_prefix ++ "/api?module=proxy&action=eth_getTransactionByHash&apikey=" ++ k ++ "&txhash=%s")
        (url_prefix ++ "/api?module=block&action=getblockreward&apikey=" ++ k ++ "&blockno=%s"))
  | _ => err TypeError
  end.

(** [createTransactionLookupConnector]; [options] is None or a dict. *)
Definition createTransactionLookupConnector (chain : Chain)
    (options : option (list (string * pyval))) : outcome Connector :=
  if Chain_eqb chain mockchain || Chain_eqb chain bitcoin_regtest then
    Return (MockConnector chain)
  else
    match blockchain_type chain with
    | ethereum =>
        let etherscan_api_token :=
          match options with
          | Some ((_ :: _) as d) =>
              match assoc "etherscan_api_token" d with
              | Some t => t
              | None => PyStr EmptyString
              end
          | _ => PyStr EmptyString
          end in
        EtherscanConnector_init chain etherscan_api_token
    | _ => FallbackConnector_init chain
    end.

(** [TransactionLookupConnector.fetch_tx]; [self.url % txid] is computed
    once here, the source computes it again for the log. *)
Definition fetch_tx (url : option string) (txid : string) : Py pyval :=
  match url with
  | None => lift (err TypeError)
  | Some u =>
      target <- lift (py_mod u txid) ;;
      r <- requests_get (PyStr target) (Some headers) None ;;
      if negb (status_code r =? 200) then
        logging ERROR "Error looking up transaction_id with url=%s, status_code=%d"
          [PyStr target; PyInt (status_code r)] ;;
        msg <- lift (py_mod "error looking up transaction_id=%s" txid) ;;
        raise (Exn InvalidTransactionError msg)
      else lift (json r)
  end.

(** A [for] loop over [l] whose body may raise, [st] being the variables
    the body assigns. *)
Fixpoint for_each {S A} (body : S -> A -> outcome S) (st : S) (l : list A)
    : outcome S :=
  match l with
  | [] => Return st
  | x :: l' => let* st' := body st x in for_each body st' l'
  end.

Section Connectors.

(** Python's parsers of numbers written in a str are taken as given:
    [str_to_int base s] is [int(s, base)] and [str_to_float s] is
    [float(s)], [None] standing for [ValueError]. *)
Variable str_to_int : Z -> string -> option Z.
Variable str_to_float : string -> option spec_float.

(** [int(v)] *)
Definition py_int (v : pyval) : outcome Z :=
  match v with
  | PyBool b => Return (if b then 1 else 0)
  | PyInt z => Return z
  | PyFloat f => int_of_float f
  | PyStr s => match str_to_int 10 s with Some z => Return z | None => err ValueError end
  | _ => err TypeError
  end.

(** [int(v, 16)]: only a str may come with a base. *)
Definition py_int16 (v : pyval) : outcome Z :=
  match v with
  | PyStr s => match str_to_int 16 s with Some z => Return z | None => err ValueError end
  | _ => err TypeError
  end.

(** [float(v)] *)
Definition py_float (v : pyval) : outcome spec_float :=
  match v with
  | PyBool b => float_of_int (if b then 1 else 0)
  | PyInt z => float_of_int z
  | PyFloat f => Return f
  | PyStr s => match str_to_float s with Some f => Return f | None => err ValueError end
  | _ => err TypeError
  end.

(** [PUBKEY_PREFIX] of [cert_core]; only its length is used. *)
Variable PUBKEY_PREFIX : string.

(** *** blockchain.info *)

(** The body of the loop over the outputs; the loop assigns [script] and
    [revoked]. *)
Definition BlockchainInfo_output (st : pyval * list pyval) (o : pyval)
    : outcome (pyval * list pyval) :=
  let* v := py_get o "value" (PyInt 1) in
  let* n := py_int v in
  if n =? 0 then
    let* s := getitem o "script" in
    let* s4 := slice_from s 4 in
    Return (s4, snd st)
  else
    let* spent := py_get o "spent" PyNone in
    if truthy spent then
      let* addr := py_get o "addr" PyNone in
      let* revoked' := set_add addr (snd st) in
      Return (fst st, revoked')
    else Return st.

(** [BlockchainInfoConnector.parse_tx] *)
Definition BlockchainInfo_parse_tx (json_response : pyval) : Py pyobj :=
  time <- lift (getitem json_response "time") ;;
  signing_key <- lift (let* inputs := getitem json_response "inputs" in
                       let* input := getindex inputs 0 in
                       let* prev_out := getitem input "prev_out" in
                       getitem prev_out "addr") ;;
  st <- lift (let* out := getitem json_response "out" in
              let* outs := py_iter out in
              for_each BlockchainInfo_output (PyNone, []) outs) ;;
  if negb (truthy (fst st)) then
    logging ERROR "transaction response is missing op_return script: %s"
      [json_response] ;;
    msg <- lift (py_mod_plain "transaction response is missing op_return script"
                   json_response) ;;
    raise (Exn InvalidTransactionError msg)
  else
    ret (ObjTransactionData
           {| signing_key := signing_key; script := fst st;
              date_time_utc := time; revoked_addresses := Some (snd st) |}).

(** *** blockcypher *)

Definition Blockcypher_output (st : pyval * list pyval) (o : pyval)
    : outcome (pyval * list pyval) :=
  let* v := py_get o "value" (PyInt 1) in
  let* x := py_float v in
  if float_is_zero x then
    let* s := getitem o "data_hex" in
    Return (s, snd st)
  else
    let* spent_by := py_get o "spent_by" PyNone in
    if truthy spent_by then
      let* addresses := py_get o "addresses" PyNone in
      let* addr := getindex addresses 0 in
      let* revoked' := set_add addr (snd st) in
      Return (fst st, revoked')
    else Return st.

(** [BlockcypherConnector.parse_tx] *)
Definition Blockcypher_parse_tx (json_response : pyval) : Py pyobj :=
  time <- lift (getitem json_response "received") ;;
  signing_key <- lift (let* inputs := getitem json_response "inputs" in
                       let* input := getindex inputs 0 in
                       let* addresses := getitem input "addresses" in
                       getindex addresses 0) ;;
  st <- lift (let* out := getitem json_response "outputs" in
              let* outs := py_iter out in
              for_each Blockcypher_output (PyNone, []) outs) ;;
  if negb (truthy (fst st)) then
    logging ERROR "transaction response is missing op_return script: %s"
      [json_response] ;;
    msg <- lift (py_mod_plain "transaction response is missing op_return script"
                   json_response) ;;
    raise (Exn InvalidTransactionError msg)
  else
    ret (ObjTransactionData
           {| signing_key := signing_key; script := fst st;
              date_time_utc := time; revoked_addresses := Some (snd st) |}).

(** *** etherscan *)

(** [EtherscanConnector.parse_tx].  [int(block_no, 16)] takes a str only,
    so the later [% block_no] formats a str. *)
Definition Etherscan_parse_tx (timestamp_url : string) (json_response : pyval)
    : Py pyobj :=
  signing_key <- lift (let* result := getitem json_response "result" in
                       getitem result "from") ;;
  script <- lift (let* result := getitem json_response "result" in
                  getitem result "input") ;;
  block_no <- lift (let* result := getitem json_response "result" in
                    getitem result "blockNumber") ;;
  if negb (truthy script) then
    logging ERROR "transaction response is missing input: %s" [json_response] ;;
    raise (Exn InvalidTransactionError "transaction response is missing input")
  else if negb (truthy block_no) then
    logging ERROR "transaction is not yet confirmed: %s" [json_response] ;;
    raise (Exn InvalidTransactionError "transaction is not yet confirmed")
  else
    n <- lift (py_int16 block_no) ;;
    ts_url <- lift (py_mod timestamp_url (py_str_of_int n)) ;;
    r <- requests_get (PyStr ts_url) (Some headers) None ;;
    if negb (status_code r =? 200) then
      logging ERROR "Error looking up block timestamp with url=%s, status_code=%d"
        [PyStr ts_url; PyInt (status_code r)] ;;
      msg <- lift (match block_no with
                   | PyStr b => py_mod "error looking up block timestamp=%s" b
                   | _ => err TypeError
                   end) ;;
      raise (Exn InvalidTransactionError msg)
    else
      date_time <- lift (let* body := json r in
                         let* result := getitem body "result" in
                         getitem result "timeStamp") ;;
      t <- lift (py_int date_time) ;;
      ret (ObjTransactionData
             {| signing_key := signing_key; script := script;
                date_time_utc := PyInt t; revoked_addresses := None |}).

(** *** lookup_tx *)

Section Fallback.
Variable lookup : Connector -> string -> Py pyobj.

(** The loop of [FallbackConnector.lookup_tx] over the connectors still to
    try, [exceptions] being the list collected so far. *)
Fixpoint try_connectors (txid : string) (cs : list Connector)
    (exceptions : list exn) : Py pyobj :=
  match cs with
  | [] => raise (ExnList InvalidTransactionError exceptions)
  | connector :: rest =>
      fun w =>
        match lookup connector txid w with
        | (Return response, w') =>
            if obj_truthy response then (Return response, w')
            else try_connectors txid rest exceptions w'
        | (Raise e, w') =>
            (logging WARNING "Error looking up transaction, trying more connectors" [] ;;
             try_connectors txid rest (exceptions ++ [e])%list) w'
        end
  end.
End Fallback.

(** [parse_tx], by class. *)
Definition parse_tx (c : Connector) (json_response : pyval) : Py pyobj :=
  match c with
  | BlockchainInfoConnector _ => BlockchainInfo_parse_tx json_response
  | BlockcypherConnector _ => Blockcypher_parse_tx json_response
  | EtherscanConnector _ timestamp_url => Etherscan_parse_tx timestamp_url json_response
  | _ => ret ObjNone
  end.

(** The [url] attribute; the mock and fallback connectors never set it. *)
Definition url_of (c : Connector) : option string :=
  match c with
  | TransactionLookupConnector u => u
  | BlockchainInfoConnector u | BlockcypherConnector u | EtherscanConnector u _ => Some u
  | MockConnector _ | FallbackConnector _ _ => None
  end.

(** [lookup_tx], by class: the mock connector answers [True], the fallback
    connector tries its connectors in turn, every other class inherits
    fetch-then-parse. *)
Fixpoint lookup_tx (c : Connector) (txid : string) {struct c} : Py pyobj :=
  match c with
  | MockConnector _ => ret ObjTrue
  | FallbackConnector _ connectors => try_connectors lookup_tx txid connectors []
  | _ => json_response <- fetch_tx (url_of c) txid ;; parse_tx c json_response
  end.

(** *** Issuer information *)

(** [get_remote_json] *)
Definition get_remote_json (the_url : pyval) : Py pyval :=
  r <- requests_get the_url None (Some 10) ;;
  if negb (status_code r =? 200) then
    logging ERROR "Error looking up url=%s, status_code=%d"
      [the_url; PyInt (status_code r)] ;;
    ret PyNone
  else
    remote_json <- lift (json r) ;;
    logging DEBUG "Found results at url=%s" [the_url] ;;
    ret remote_json.

(** [get_field_or_default] *)
Definition get_field_or_default (data : pyval) (field_name : string)
    : outcome pyval :=
  let* present := py_in field_name data in
  if present then getitem data field_name else Return PyNone.

(** A list comprehension [[f(x) for x in l]]. *)
Fixpoint comprehension {A B} (f : A -> outcome B) (l : list A)
    : outcome (list B) :=
  match l with
  | [] => Return []
  | x :: l' => let* y := f x in
               let* ys := comprehension f l' in
               Return (y :: ys)
  end.

Definition v2ish (cm : certificate_model) : bool :=
  match version cm with V2 | V2_ALPHA => true | _ => false end.

(** Lines 212-219 of [get_issuer_info]: the value of [revoked_assertions]
    once the revocation list of the certificate has been looked at. *)
Definition collect_revoked_assertions (cm : certificate_model)
    : Py (list pyval) :=
  if v2ish cm then
    listed <- lift (let* badge := getitem (certificate_json cm) "badge" in
                    let* issuer := getitem badge "issuer" in
                    py_in "revocationList" issuer) ;;
    if (listed : bool) then
      revocation_url <- lift (let* badge := getitem (certificate_json cm) "badge" in
                              let* issuer := getitem badge "issuer" in
                              getitem issuer "revocationList") ;;
      revoked_json <- get_remote_json revocation_url ;;
      if truthy revoked_json then
        ra <- lift (getitem revoked_json "revokedAssertions") ;;
        if truthy ra then
          lift (let* ra' := getitem revoked_json "revokedAssertions" in
                let* rs := py_iter ra' in
                comprehension (fun r => getitem r "id") rs)
        else ret []
      else ret []
    else ret []
  else ret [].

(** The body of the two loops over the public keys of an issuer profile,
    [field] being ['id'] or ['publicKey']; the loop appends to
    [issuer_keys]. *)
Definition append_issuer_key (field : string) (issuer_keys : list IssuerKey)
    (public_key : pyval) : outcome (list IssuerKey) :=
  let* pk := (let* v := getitem public_key field in
              slice_from v (String.length PUBKEY_PREFIX)) in
  let* created := get_field_or_default public_key "created" in
  let* expires := get_field_or_default public_key "expires" in
  let* revoked := get_field_or_default public_key "revoked" in
  Return (issuer_keys ++
          [{| public_key := pk; created := Some created;
              expires := Some expires; revoked := Some revoked |}])%list.

(** [IssuerKey(key)] *)
Definition IssuerKey1 (key : pyval) : IssuerKey :=
  {| public_key := key; created := None; expires := None; revoked := None |}.

(** [issuer_json[field][0]['key']] *)
Definition first_key (field : string) (issuer_json : pyval) : outcome pyval :=
  let* ks := getitem issuer_json field in
  let* k := getindex ks 0 in
  getitem k "key".

(** Lines 221-250 of [get_issuer_info]: the issuer information read from
    the profile, given the revoked assertions collected before. *)
Definition issuer_info_of_profile (issuer_json : pyval)
    (revoked_assertions : list pyval) : outcome IssuerInfo :=
  let* context := py_in "@context" issuer_json in
  if (context : bool) then
    let* has_publicKey := py_in "publicKey" issuer_json in
    let* issuer_keys :=
      if (has_publicKey : bool) then
        let* keys := getitem issuer_json "publicKey" in
        let* l := py_iter keys in
        for_each (append_issuer_key "id") [] l
      else
        let* has_publicKeys := py_in "publicKeys" issuer_json in
        if (has_publicKeys : bool) then
          let* keys := getitem issuer_json "publicKeys" in
          let* l := py_iter keys in
          for_each (append_issuer_key "publicKey") [] l
        else Return [] in
    Return {| issuer_keys := issuer_keys; revocation_keys := None;
              revoked_assertions := Some revoked_assertions |}
  else
    let* key := first_key "issuerKeys" issuer_json in
    let issuer_key := IssuerKey1 key in
    match revoked_assertions with
    | _ :: _ =>
        Return {| issuer_keys := [issuer_key]; revocation_keys := None;
                  revoked_assertions := Some revoked_assertions |}
    | [] =>
        let* rkey := first_key "revocationKeys" issuer_json in
        Return {| issuer_keys := [issuer_key];
                  revocation_keys := Some [IssuerKey1 rkey];
                  revoked_assertions := None |}
    end.

(** [get_issuer_info] *)
Definition get_issuer_info (cm : certificate_model) : Py IssuerInfo :=
  issuer_json <- get_remote_json (PyStr (issuer_id cm)) ;;
  if negb (truthy issuer_json) then
    raise (Exn Exception ("Issuer URL returned no results " ++ issuer_id cm))
  else
    revoked_assertions <- collect_revoked_assertions cm ;;
    lift (issuer_info_of_profile issuer_json revoked_assertions).

(** ** Specification vocabulary *)

(** The world after the warning that [FallbackConnector.lookup_tx] logs
    when a connector has raised. *)
Definition warned (w : world) : world :=
  snd (logging WARNING "Error looking up transaction, trying more connectors" [] w).

(** [Fallthrough cs txid w es w']: tried in order from the world [w], every
    connector of [cs] fails, by raising or by returning an empty result;
    [es] lists the exceptions raised, in the order of the attempts, and [w']
    is the world the attempts leave. *)
Inductive Fallthrough (txid : string)
    : list Connector -> world -> list exn -> world -> Prop :=
| Fallthrough_nil w : Fallthrough txid [] w [] w
| Fallthrough_raise c cs w e w1 es w2 :
    lookup_tx c txid w = (Raise e, w1) ->
    Fallthrough txid cs (warned w1) es w2 ->
    Fallthrough txid (c :: cs) w (e :: es) w2
| Fallthrough_empty c cs w r w1 es w2 :
    lookup_tx c txid w = (Return r, w1) ->
    obj_truthy r = false ->
    Fallthrough txid cs w1 es w2 ->
    Fallthrough txid (c :: cs) w es w2.

(** [e] is a failure of connector [c] on [txid]. *)
Definition raised_by (txid : string) (c : Connector) (e : exn) : Prop :=
  exists w w', lookup_tx c txid w = (Raise e, w').

(** A connector that never answers with an empty result, as the
    connectors that build a [TransactionData] do. *)
Definition never_empty (c : Connector) : Prop :=
  forall txid w r w', lookup_tx c txid w = (Return r, w') -> obj_truthy r = true.

(** The connectors a fallback connector holds. *)
Definition connectors_of (c : Connector) : list Connector :=
  match c with FallbackConnector _ cs => cs | _ => [] end.

(** The two families of connectors that go to the network. *)
Definition utxo_style (c : Connector) : bool :=
  match c with
  | BlockchainInfoConnector _ | BlockcypherConnector _ => true
  | _ => false
  end.

Definition account_based (c : Connector) : bool :=
  match c with EtherscanConnector _ _ => true | _ => false end.

(** The chains the factory answers with the mock connector. *)
Definition test_chain (chain : Chain) : bool :=
  Chain_eqb chain mockchain || Chain_eqb chain bitcoin_regtest.

(** *** Responses of the two UTXO providers *)

(** The two ways the providers name the fields of a transaction. *)
Inductive naming : Type := BlockchainInfo | Blockcypher.

Definition parse_utxo (n : naming) : pyval -> Py pyobj :=
  match n with
  | BlockchainInfo => BlockchainInfo_parse_tx
  | Blockcypher => Blockcypher_parse_tx
  end.

Definition utxo_output (n : naming)
    : pyval * list pyval -> pyval -> outcome (pyval * list pyval) :=
  match n with
  | BlockchainInfo => BlockchainInfo_output
  | Blockcypher => Blockcypher_output
  end.

(** What both adapters put into the exception, and into the log, when no
    script was found. *)
Definition missing_script : string :=
  "transaction response is missing op_return script".

(** The test the loop makes on an output: is its value zero. *)
Definition zero_value (n : naming) (o : pyval) : outcome bool :=
  let* v := py_get o "value" (PyInt 1) in
  match n with
  | BlockchainInfo => let* z := py_int v in Return (z =? 0)
  | Blockcypher => let* x := py_float v in Return (float_is_zero x)
  end.

(** The payload of an output: the script behind its first four characters
    for blockchain.info, the field [data_hex] for blockcypher. *)
Definition payload (n : naming) (o : pyval) : outcome pyval :=
  match n with
  | BlockchainInfo => let* s := getitem o "script" in slice_from s 4
  | Blockcypher => getitem o "data_hex"
  end.

(** The address an output adds to the revoked set, if it is spent. *)
Definition spent_address (n : naming) (o : pyval) : outcome (option pyval) :=
  match n with
  | BlockchainInfo =>
      let* spent := py_get o "spent" PyNone in
      if truthy spent then
        let* addr := py_get o "addr" PyNone in Return (Some addr)
      else Return None
  | Blockcypher =>
      let* spent_by := py_get o "spent_by" PyNone in
      if truthy spent_by then
        let* addresses := py_get o "addresses" PyNone in
        let* addr := getindex addresses 0 in Return (Some addr)
      else Return None
  end.

(** An output of a value other than zero whose address, if the output is
    spent, is there and can be put into a set. *)
Definition value_output (n : naming) (o : pyval) : bool :=
  match zero_value n o, spent_address n o with
  | Return false, Return (Some addr) => hashable addr
  | Return false, Return None => true
  | _, _ => false
  end.

(** A response with the fields a transaction has under the naming [n]:
    the time, the address of the first input and the list of outputs. *)
Definition transaction_response (n : naming) (j : pyval)
    (time sk : pyval) (outs : list pyval) : Prop :=
  match n with
  | BlockchainInfo =>
      getitem j "time" = Return time /\
      (let* inputs := getitem j "inputs" in
       let* input := getindex inputs 0 in
       let* prev_out := getitem input "prev_out" in
       getitem prev_out "addr") = Return sk /\
      getitem j "out" = Return (PyList outs)
  | Blockcypher =>
      getitem j "received" = Return time /\
      (let* inputs := getitem j "inputs" in
       let* input := getindex inputs 0 in
       let* addresses := getitem input "addresses" in
       getindex addresses 0) = Return sk /\
      getitem j "outputs" = Return (PyList outs)
  end.

(** The world after [logging.error(m, args)]. *)
Definition logged (m : string) (args : list pyval) (w : world) : world :=
  snd (logging ERROR m args w).

(** The world after a request [rq] has been sent. *)
Definition requested (rq : request) (w : world) : world :=
  {| remote := remote w; sent := (sent w ++ [rq])%list; logs := logs w |}.

(** The request [fetch_tx] sends for the address [target]. *)
Definition fetch_request (target : string) : request :=
  {| req_url := PyStr target; req_headers := Some headers; req_timeout := None |}.

(** The request [get_remote_json] sends. *)
Definition json_request (the_url : pyval) : request :=
  {| req_url := the_url; req_headers := None; req_timeout := Some 10 |}.

(** *** Issuer profiles *)

(** The revocation list a certificate names under its issuer, if any. *)
Definition revocation_list (cm : certificate_model) : outcome (option pyval) :=
  let* badge := getitem (certificate_json cm) "badge" in
  let* issuer := getitem badge "issuer" in
  let* listed := py_in "revocationList" issuer in
  if (listed : bool) then
    let* u := getitem issuer "revocationList" in Return (Some u)
  else Return None.


(** *** Sample responses and worlds *)

(** A world in which the remote side gives the answers of a list, one
    after the other, whatever is asked. *)
Definition world_of (answers : list (outcome Response)) : world :=
  {| remote := fun n _ => nth n answers (Raise (Exn RequestException EmptyString));
     sent := []; logs := [] |}.

Definition ok (body : pyval) : outcome Response :=
  Return {| status_code := 200; json := Return body |}.

Definition status (code : Z) : outcome Response :=
  Return {| status_code := code; json := Raise (Exn JSONDecodeError EmptyString) |}.

(** A blockchain.info transaction with the outputs [outs]. *)
Definition sample_BlockchainInfo (outs : list pyval) : pyval :=
  PyDict [("time", PyInt 1500000000);
          ("inputs", PyList [PyDict [("prev_out", PyDict [("addr", PyStr "1Issuer")])]]);
          ("out", PyList outs)].

(** A blockcypher transaction with the outputs [outs]. *)
Definition sample_Blockcypher (outs : list pyval) : pyval :=
  PyDict [("received", PyStr "2017-07-14T02:40:00Z");
          ("inputs", PyList [PyDict [("addresses", PyList [PyStr "1Issuer"])]]);
          ("outputs", PyList outs)].

(** Python's parsers on plain numerals, which is what the samples hold:
    for [int], decimal digits behind an optional minus sign and, in base
    16, hexadecimal digits behind [0x]; for [float], decimal digits. *)
Definition sample_str_to_int (base : Z) (s : string) : option Z :=
  if base =? 16 then
    match s with
    | String "0" (String "x" h) =>
        option_map Z.of_hex_uint (HexadecimalString.NilZero.uint_of_string h)
    | _ => None
    end
  else option_map Z.of_int (DecimalString.NilZero.int_of_string s).

Definition sample_str_to_float (s : string) : option spec_float :=
  match DecimalString.NilZero.uint_of_string s with
  | Some d =>
      match float_of_int (Z.of_uint d) with
      | Return f => Some f
      | Raise _ => Some (S754_infinity false)
      end
  | None => None
  end.

Definition sample_PUBKEY_PREFIX : string := "ecdsa-koblitz-pubkey:".

Definition mainnet_BlockchainInfo : Connector :=
  BlockchainInfoConnector "https://blockchain.info/rawtx/%s?cors=true".

Definition mainnet_Blockcypher : Connector :=
  BlockcypherConnector "https://api.blockcypher.com/v1/btc/main/txs/%s?limit=100".

Definition mainnet_Etherscan : Connector :=
  EtherscanConnector
    "https://api.etherscan.io/api?module=proxy&action=eth_getTransactionByHash&apikey=&txhash=%s"
    "https://api.etherscan.io/api?module=block&action=getblockreward&apikey=&blockno=%s".

(** An output that pays to an address and has been spent, in both
    namings. *)
Definition sample_paid : pyval :=
  PyDict [("value", PyInt 2750); ("spent", PyBool true); ("addr", PyStr "1Recipient");
          ("spent_by", PyStr "f00d"); ("addresses", PyList [PyStr "1Recipient"])].

(** An output of value zero that carries [data], in both namings. *)
Definition sample_op_return (data : string) : pyval :=
  PyDict [("value", PyInt 0); ("script", PyStr ("6a20" ++ data));
          ("data_hex", PyStr data)].

(** An etherscan transaction and the block it is in. *)
Definition sample_Etherscan : pyval :=
  PyDict [("result", PyDict [("from", PyStr "0xIssuer"); ("input", PyStr "0xabcd");
                             ("blockNumber", PyStr "0x1b4")])].

Definition sample_block : pyval :=
  PyDict [("result", PyDict [("timeStamp", PyStr "1500000000")])].


Definition sample_profile_V2 : pyval :=
  PyDict [("@context", PyStr "https://w3id.org/openbadges/v2");
          ("publicKey",
           PyList [PyDict [("id", PyStr "ecdsa-koblitz-pubkey:1Issuer");
                           ("created", PyStr "2017-06-29T14:48:03Z")]])].

Definition sample_revoked : pyval :=
  PyDict [("revokedAssertions", PyList [PyDict [("id", PyStr "urn:uuid:93019408")]])].

Definition sample_profile_V1 : pyval :=
  PyDict [("issuerKeys", PyList [PyDict [("date", PyStr "2016-05-01"); ("key", PyStr "1Issuer")]]);
          ("revocationKeys", PyList [PyDict [("date", PyStr "2016-05-01"); ("key", PyStr "1Revoke")]])].

Definition sample_certificate (v : BlockcertVersion) (issuer : list (string * pyval))
    : certificate_model :=
  {| issuer_id := "https://issuer.example/profile.json";
     version := v;
     certificate_json := PyDict [("badge", PyDict [("issuer", PyDict issuer)])] |}.

Definition sample_revocation_list : pyval :=
  PyStr "https://issuer.example/revoked.json".

(** An etherscan transaction without input data, and one that is in no
    block yet. *)
Definition sample_Etherscan_no_input : pyval :=
  PyDict [("result", PyDict [("from", PyStr "0xIssuer"); ("input", PyStr EmptyString);
                             ("blockNumber", PyStr "0x1b4")])].

Definition sample_Etherscan_pending : pyval :=
  PyDict [("result", PyDict [("from", PyStr "0xIssuer"); ("input", PyStr "0xabcd");
                             ("blockNumber", PyNone)])].


(** A legacy profile with two issuer keys and two revocation keys, the
    current ones first. *)
Definition sample_profile_V1_keys : pyval :=
  PyDict [("issuerKeys",
           PyList [PyDict [("date", PyStr "2017-01-01"); ("key", PyStr "1Issuer")];
                   PyDict [("date", PyStr "2016-05-01"); ("key", PyStr "1Former")]]);
          ("revocationKeys",
           PyList [PyDict [("date", PyStr "2017-01-01"); ("key", PyStr "1Revoke")];
                   PyDict [("date", PyStr "2016-05-01"); ("key", PyStr "1Retired")]])].

(** *** Further vocabulary *)


(** The addresses the two UTXO connectors ask for a transaction. *)
Definition BlockchainInfo_address (chain : Chain) (txid : string) : string :=
  (if Chain_eqb chain bitcoin_testnet
   then "https://testnet.blockchain.info/rawtx/"
   else "https://blockchain.info/rawtx/") ++ txid ++ "?cors=true".

Definition Blockcypher_address (chain : Chain) (txid : string) : string :=
  (if Chain_eqb chain bitcoin_testnet
   then "http://api.blockcypher.com/v1/btc/test3/txs/"
   else "https://api.blockcypher.com/v1/btc/main/txs/") ++ txid ++ "?limit=100".


(** The payload of an output of value zero, [None] for any other output
    and for one whose payload cannot be read. *)
Definition data_output (n : naming) (o : pyval) : option pyval :=
  match zero_value n o, payload n o with
  | Return true, Return p => Some p
  | _, _ => None
  end.

(** An output the loop gets through: a value output, or an output of value
    zero with a payload. *)
Definition readable_output (n : naming) (o : pyval) : bool :=
  value_output n o ||
  match data_output n o with Some _ => true | None => false end.

(** The payload of the last output of value zero of [l], [s] if there is
    none. *)
Fixpoint last_payload (n : naming) (s : pyval) (l : list pyval) : pyval :=
  match l with
  | [] => s
  | o :: l' =>
      last_payload n (match data_output n o with Some p => p | None => s end) l'
  end.

(** The addresses of the value outputs of [l] that are spent, in the order
    of the outputs. *)
Definition spent_addresses (n : naming) (l : list pyval) : list pyval :=
  flat_map (fun o =>
              if value_output n o then
                match spent_address n o with
                | Return (Some addr) => [addr]
                | _ => []
                end
              else []) l.

(** The three fields [EtherscanConnector.parse_tx] reads first. *)
Definition Etherscan_response (j from input block_no : pyval) : Prop :=
  exists result,
    getitem j "result" = Return result /\
    getitem result "from" = Return from /\
    getitem result "input" = Return input /\
    getitem result "blockNumber" = Return block_no.





(** The world after [logging.debug(m, args)]. *)
Definition noted (m : string) (args : list pyval) (w : world) : world :=
  snd (logging DEBUG m args w).



(** ** The monad, step by step *)

Lemma bind_Return {A B} (m : Py A) (k : A -> Py B) w a w1 :
  m w = (Return a, w1) -> bind m k w = k a w1.
Proof. unfold bind. now intros ->. Qed.

Lemma bind_Return_inv {A B} (m : Py A) (k : A -> Py B) w b w' :
  bind m k w = (Return b, w') ->
  exists a w1, m w = (Return a, w1) /\ k a w1 = (Return b, w').
Proof.
  unfold bind. destruct (m w) as [[a|e] w1]; intros H.
  - now exists a, w1.
  - discriminate.
Qed.

Lemma lift_Return_inv {A} (o : outcome A) w a w' :
  lift o w = (Return a, w') -> o = Return a /\ w' = w.
Proof. unfold lift. now intros [= -> ->]. Qed.

Lemma obind_Return_inv {A B} (o : outcome A) (k : A -> outcome B) b :
  obind o k = Return b -> exists a, o = Return a /\ k a = Return b.
Proof. destruct o as [a|e]; simpl; intros H; [now exists a | discriminate]. Qed.

(** ** The fallback connector *)

Lemma lookup_tx_FallbackConnector chain cs txid :
  lookup_tx (FallbackConnector chain cs) txid = try_connectors lookup_tx txid cs [].
Proof. reflexivity. Qed.

(** Connectors that all fail are passed over; the loop goes on behind them
    with their exceptions appended to the list. *)
Lemma try_connectors_fallthrough txid pre w es w1 :
  Fallthrough txid pre w es w1 ->
  forall rest acc,
    try_connectors lookup_tx txid (pre ++ rest) acc w
    = try_connectors lookup_tx txid rest (acc ++ es) w1.
Proof.
  induction 1 as [w | c cs w e w1 es w2 Hc _ IH | c cs w r w1 es w2 Hc Hr _ IH];
    intros rest acc.
  - now rewrite app_nil_r.
  - cbn [app try_connectors]. rewrite Hc.
    unfold bind, logging. fold (warned w1).
    unfold warned, logging in IH |- *. cbn [snd] in IH |- *.
    rewrite IH. now rewrite <- app_assoc.
  - cbn [app try_connectors]. rewrite Hc, Hr. apply IH.
Qed.

(** When every connector fails, the fallback connector raises with the
    exceptions collected on the way. *)
Lemma FallbackConnector_raises_collected chain cs txid w es w' :
  Fallthrough txid cs w es w' ->
  lookup_tx (FallbackConnector chain cs) txid w
  = (Raise (ExnList InvalidTransactionError es), w').
Proof.
  intros H. rewrite lookup_tx_FallbackConnector, <- (app_nil_r cs).
  now rewrite (try_connectors_fallthrough _ _ _ _ _ H).
Qed.

(** Connectors that never return an empty result fail by raising only, so
    each of them has its exception in the list. *)
Lemma Fallthrough_all_raised txid cs w es w' :
  Fallthrough txid cs w es w' ->
  Forall never_empty cs ->
  List.length es = List.length cs /\ Forall2 (raised_by txid) cs es.
Proof.
  induction 1 as [w | c cs w e w1 es w2 Hc _ IH | c cs w r w1 es w2 Hc Hr _ IH];
    intros Hne.
  - split; [reflexivity | constructor].
  - inversion Hne as [|? ? _ Hne']; subst.
    destruct (IH Hne') as [Hlen Hall]. split.
    + cbn. now rewrite Hlen.
    + constructor; [now exists w, w1 | exact Hall].
  - inversion Hne as [|? ? Hc' _]; subst.
    apply Hc' in Hc. congruence.
Qed.

(** ** What a successful lookup returns *)

Ltac py_inv H :=
  repeat match type of H with
  | bind _ _ _ = (Return _, _) =>
      let a := fresh "a" in let w1 := fresh "w" in
      let H1 := fresh "H" in
      apply bind_Return_inv in H; destruct H as (a & w1 & H1 & H);
      try (apply lift_Return_inv in H1; destruct H1 as [H1 ->])
  | (if ?b then _ else _) _ = (Return _, _) => destruct b eqn:?
  | raise _ _ = (Return _, _) => discriminate H
  | ret _ _ = (Return _, _) => unfold ret in H
  end.

Lemma BlockchainInfo_parse_tx_Return j w r w' :
  BlockchainInfo_parse_tx j w = (Return r, w') ->
  exists t s, r = ObjTransactionData t /\ truthy (script t) = true /\
              revoked_addresses t = Some s /\ w' = w.
Proof.
  unfold BlockchainInfo_parse_tx. intros H. py_inv H.
  injection H as <- <-. eexists _, _. repeat split.
  cbn. now destruct (truthy (fst a1)).
Qed.

Lemma Blockcypher_parse_tx_Return j w r w' :
  Blockcypher_parse_tx j w = (Return r, w') ->
  exists t s, r = ObjTransactionData t /\ truthy (script t) = true /\
              revoked_addresses t = Some s /\ w' = w.
Proof.
  unfold Blockcypher_parse_tx. intros H. py_inv H.
  injection H as <- <-. eexists _, _. repeat split.
  cbn. now destruct (truthy (fst a1)).
Qed.

Lemma Etherscan_parse_tx_Return ts j w r w' :
  Etherscan_parse_tx ts j w = (Return r, w') ->
  exists t, r = ObjTransactionData t /\ truthy (script t) = true /\
            revoked_addresses t = None.
Proof.
  unfold Etherscan_parse_tx. intros H. py_inv H.
  injection H as <- <-. eexists. repeat split.
  cbn. now destruct (truthy a0).
Qed.

Lemma lookup_tx_fetch_parse c txid :
  match c with MockConnector _ | FallbackConnector _ _ => False | _ => True end ->
  lookup_tx c txid = bind (fetch_tx (url_of c) txid) (parse_tx c).
Proof. destruct c; intros H; (reflexivity || contradiction). Qed.

Lemma never_empty_BlockchainInfo u : never_empty (BlockchainInfoConnector u).
Proof.
  intros txid w r w' H. rewrite lookup_tx_fetch_parse in H by exact I.
  apply bind_Return_inv in H. destruct H as (j & w1 & _ & H). cbn in H.
  apply BlockchainInfo_parse_tx_Return in H.
  destruct H as (t & s & -> & _). reflexivity.
Qed.

Lemma never_empty_Blockcypher u : never_empty (BlockcypherConnector u).
Proof.
  intros txid w r w' H. rewrite lookup_tx_fetch_parse in H by exact I.
  apply bind_Return_inv in H. destruct H as (j & w1 & _ & H). cbn in H.
  apply Blockcypher_parse_tx_Return in H.
  destruct H as (t & s & -> & _). reflexivity.
Qed.

(** Every record the two UTXO adapters return has a script that is not
    empty. *)
Lemma utxo_record_script_nonempty c txid w t w' :
  utxo_style c = true ->
  lookup_tx c txid w = (Return (ObjTransactionData t), w') ->
  truthy (script t) = true.
Proof.
  intros Hc H. destruct c; try discriminate Hc;
    rewrite lookup_tx_fetch_parse in H by exact I;
    apply bind_Return_inv in H; destruct H as (j & w1 & _ & H); cbn in H.
  - apply BlockchainInfo_parse_tx_Return in H.
    destruct H as (t' & s & [= ->] & Ht & _). exact Ht.
  - apply Blockcypher_parse_tx_Return in H.
    destruct H as (t' & s & [= ->] & Ht & _). exact Ht.
Qed.

Lemma FallbackConnector_init_inv chain fc :
  FallbackConnector_init chain = Return fc ->
  exists u1 u2,
    fc = FallbackConnector chain [BlockchainInfoConnector u1; BlockcypherConnector u2].
Proof.
  unfold FallbackConnector_init, BlockchainInfoConnector_init,
    BlockcypherConnector_init.
  destruct chain; cbn; intros [= <-]; eexists _, _; reflexivity.
Qed.

(** ** The loop over the outputs *)

Lemma for_each_app {S A} (body : S -> A -> outcome S) l1 l2 st :
  for_each body st (l1 ++ l2)
  = (let* st' := for_each body st l1 in for_each body st' l2).
Proof.
  revert st. induction l1 as [|x l1 IH]; intros st; cbn; [reflexivity|].
  destruct (body st x); cbn; [apply IH | reflexivity].
Qed.

(** The output of value zero sets [script] to its payload. *)
Lemma utxo_output_zero n st o p :
  zero_value n o = Return true ->
  payload n o = Return p ->
  utxo_output n st o = Return (p, snd st).
Proof.
  unfold zero_value, payload, utxo_output, BlockchainInfo_output,
    Blockcypher_output.
  destruct n; intros Hz Hp;
    destruct (py_get o "value" (PyInt 1)) as [v|]; cbn in *; try discriminate.
  - destruct (py_int v) as [z|]; cbn in *; try discriminate.
    injection Hz as ->.
    destruct (getitem o "script") as [s|]; cbn in *; try discriminate.
    now rewrite Hp.
  - destruct (py_float v) as [x|]; cbn in *; try discriminate.
    injection Hz as ->. now rewrite Hp.
Qed.

(** An output of another value leaves [script] as it is. *)
Lemma utxo_output_value n st o :
  value_output n o = true ->
  exists r, utxo_output n st o = Return (fst st, r).
Proof.
  unfold value_output, zero_value, spent_address, utxo_output,
    BlockchainInfo_output, Blockcypher_output, set_add.
  destruct n; intros H;
    destruct (py_get o "value" (PyInt 1)) as [v|]; cbn in *; try discriminate.
  - destruct (py_int v) as [z|]; cbn in *; try discriminate.
    destruct (z =? 0); try discriminate.
    destruct (py_get o "spent" PyNone) as [sp|]; cbn in *; try discriminate.
    destruct (truthy sp); cbn in *; [|destruct st; eexists; reflexivity].
    destruct (py_get o "addr" PyNone) as [a|]; cbn in *; try discriminate.
    rewrite H. eexists; reflexivity.
  - destruct (py_float v) as [x|]; cbn in *; try discriminate.
    destruct (float_is_zero x); try discriminate.
    destruct (py_get o "spent_by" PyNone) as [sp|]; cbn in *; try discriminate.
    destruct (truthy sp); cbn in *; [|destruct st; eexists; reflexivity].
    destruct (py_get o "addresses" PyNone) as [a|]; cbn in *; try discriminate.
    destruct (getindex a 0) as [a0|]; cbn in *; try discriminate.
    rewrite H. eexists; reflexivity.
Qed.

Lemma for_each_value_outputs n l st :
  forallb (value_output n) l = true ->
  exists r, for_each (utxo_output n) st l = Return (fst st, r).
Proof.
  revert st. induction l as [|o l IH]; intros st H; cbn in *.
  - destruct st. eexists; reflexivity.
  - apply andb_prop in H. destruct H as [Ho Hl].
    destruct (utxo_output_value n st o Ho) as [r ->]. cbn.
    destruct (IH (fst st, r) Hl) as [r' ->]. now exists r'.
Qed.

Lemma parse_utxo_loop n j time sk outs w :
  transaction_response n j time sk outs ->
  parse_utxo n j w =
    (st <- lift (for_each (utxo_output n) (PyNone, []) outs) ;;
     if negb (truthy (fst st)) then
       logging ERROR "transaction response is missing op_return script: %s" [j] ;;
       msg <- lift (py_mod_plain missing_script j) ;;
       raise (Exn InvalidTransactionError msg)
     else
       ret (ObjTransactionData
              {| signing_key := sk; script := fst st;
                 date_time_utc := time; revoked_addresses := Some (snd st) |})) w.
Proof.
  destruct n; intros (Ht & Hsk & Hout);
    unfold parse_utxo, BlockchainInfo_parse_tx, Blockcypher_parse_tx, bind, lift;
    rewrite Ht, Hsk, Hout; reflexivity.
Qed.

Lemma transaction_response_dict n j time sk outs :
  transaction_response n j time sk outs -> exists d, j = PyDict d.
Proof.
  destruct n; intros (Ht & _); destruct j; try discriminate Ht; now eexists.
Qed.

(** ** The UTXO adapters *)

(** [parse_utxo] is [parse_tx] on the two UTXO connectors. *)
Lemma parse_tx_utxo u j :
  parse_tx (BlockchainInfoConnector u) j = parse_utxo BlockchainInfo j /\
  parse_tx (BlockcypherConnector u) j = parse_utxo Blockcypher j.
Proof. split; reflexivity. Qed.

(** C4.  For a response of either UTXO provider none of whose outputs has
    the value zero, [parse_tx] raises [InvalidTransactionError] with a
    fixed message: the response is written to the log and is not part of
    the exception. *)
Theorem parse_tx_missing_script n j time sk outs w :
  transaction_response n j time sk outs ->
  forallb (value_output n) outs = true ->
  parse_utxo n j w =
    (Raise (Exn InvalidTransactionError missing_script),
     logged "transaction response is missing op_return script: %s" [j] w).
Proof.
  intros Hj Houts. rewrite (parse_utxo_loop _ _ _ _ _ _ Hj).
  destruct (transaction_response_dict _ _ _ _ _ Hj) as [d ->].
  destruct (for_each_value_outputs n outs (PyNone, []) Houts) as [r Hr].
  unfold bind, lift. rewrite Hr. reflexivity.
Qed.

(** C5.  For a response of either UTXO provider with exactly one output of
    value zero, whose payload is not empty, [parse_tx] returns a record
    whose [script] is that payload. *)
Theorem parse_tx_one_zero_value_output n j time sk pre z post p w :
  transaction_response n j time sk (pre ++ z :: post) ->
  forallb (value_output n) (pre ++ post) = true ->
  zero_value n z = Return true ->
  payload n z = Return p ->
  truthy p = true ->
  exists revoked,
    parse_utxo n j w =
      (Return (ObjTransactionData
                 {| signing_key := sk; script := p; date_time_utc := time;
                    revoked_addresses := Some revoked |}), w).
Proof.
  intros Hj Hothers Hz Hp Htruthy. rewrite (parse_utxo_loop _ _ _ _ _ _ Hj).
  rewrite forallb_app in Hothers. apply andb_prop in Hothers.
  destruct Hothers as [Hpre Hpost].
  destruct (for_each_value_outputs n pre (PyNone, []) Hpre) as [r1 H1].
  destruct (for_each_value_outputs n post (p, r1) Hpost) as [r2 H2].
  exists r2. unfold bind, lift.
  rewrite for_each_app, H1. cbn [obind for_each].
  rewrite (utxo_output_zero n _ z p Hz Hp). cbn [obind snd fst] in *.
  rewrite H2. cbn [fst snd]. now rewrite Htruthy.
Qed.

(** ** The fallback, mock and etherscan connectors *)

(** C1.  On a fallback connector as its constructor builds it, a lookup in
    which every connector fails raises one [InvalidTransactionError] whose
    argument is the list of the connectors' exceptions: one for each
    connector, in the order of the connectors. *)
Theorem FallbackConnector_all_fail chain fc txid w es w' :
  FallbackConnector_init chain = Return fc ->
  Fallthrough txid (connectors_of fc) w es w' ->
  lookup_tx fc txid w = (Raise (ExnList InvalidTransactionError es), w') /\
  List.length es = List.length (connectors_of fc) /\
  Forall2 (raised_by txid) (connectors_of fc) es.
Proof.
  intros Hinit Hfail.
  destruct (FallbackConnector_init_inv _ _ Hinit) as (u1 & u2 & ->).
  cbn [connectors_of] in *. split.
  - now apply FallbackConnector_raises_collected.
  - apply (Fallthrough_all_raised _ _ _ _ _ Hfail).
    repeat constructor;
      [apply never_empty_BlockchainInfo | apply never_empty_Blockcypher].
Qed.

(** C2.  A fallback connector tries its connectors in their order: those
    that raise or return an empty result are passed over, and the first
    one that returns a non-empty result gives the result of the lookup;
    the connectors behind it are not tried (the world is as that connector
    left it) and no exception is raised. *)
Theorem FallbackConnector_first_success chain pre c post txid w es w1 r w2 :
  Fallthrough txid pre w es w1 ->
  lookup_tx c txid w1 = (Return r, w2) ->
  obj_truthy r = true ->
  lookup_tx (FallbackConnector chain (pre ++ c :: post)) txid w = (Return r, w2).
Proof.
  intros Hpre Hc Hr. rewrite lookup_tx_FallbackConnector.
  rewrite (try_connectors_fallthrough _ _ _ _ _ Hpre).
  cbn [try_connectors]. now rewrite Hc, Hr.
Qed.

(** C9.  For a test chain (the mock chain and bitcoin regtest) the factory
    returns the mock connector, and every lookup on the mock connector
    returns [True], which is no transaction record, and leaves the world
    as it was: no request is sent. *)
Theorem MockConnector_lookup chain options txid w :
  test_chain chain = true ->
  createTransactionLookupConnector chain options = Return (MockConnector chain) /\
  lookup_tx (MockConnector chain) txid w = (Return ObjTrue, w).
Proof.
  intros H. split; [|reflexivity].
  unfold createTransactionLookupConnector. fold (test_chain chain). now rewrite H.
Qed.

(** C10.  A lookup through the etherscan connector that succeeds returns a
    transaction record whose [revoked_addresses] is None; one through the
    blockchain.info or the blockcypher connector returns a record whose
    [revoked_addresses] is a set. *)
Theorem Etherscan_revoked_addresses c txid w r w' :
  lookup_tx c txid w = (Return r, w') ->
  (account_based c = true ->
   exists t, r = ObjTransactionData t /\ revoked_addresses t = None) /\
  (utxo_style c = true ->
   exists t s, r = ObjTransactionData t /\ revoked_addresses t = Some s).
Proof.
  intros H. split; intros Hc; destruct c; try discriminate Hc;
    rewrite lookup_tx_fetch_parse in H by exact I;
    apply bind_Return_inv in H; destruct H as (j & w1 & _ & H); cbn in H.
  - apply Etherscan_parse_tx_Return in H. destruct H as (t & -> & _ & Hr).
    now exists t.
  - apply BlockchainInfo_parse_tx_Return in H.
    destruct H as (t & s & -> & _ & Hr & _). now exists t, s.
  - apply Blockcypher_parse_tx_Return in H.
    destruct H as (t & s & -> & _ & Hr & _). now exists t, s.
Qed.

(** ** Fetching *)

Lemma append_empty_r (s : string) : (s ++ EmptyString)%string = s.
Proof. induction s as [|c s IH]; cbn; [reflexivity | now rewrite IH]. Qed.

Lemma py_mod_transaction_id txid :
  py_mod "error looking up transaction_id=%s" txid
  = Return ("error looking up transaction_id=" ++ txid)%string.
Proof. unfold py_mod. cbn. now rewrite append_empty_r. Qed.

(** C3.  When the response to a fetch has a status other than 200,
    [fetch_tx] raises an [InvalidTransactionError], the class of every
    lookup failure of the module, whose message names the transaction id;
    the address requested and the status are written to the error log. *)
Theorem fetch_tx_bad_status u txid w target r :
  py_mod u txid = Return target ->
  remote w (List.length (sent w)) (fetch_request target) = Return r ->
  status_code r <> 200 ->
  fetch_tx (Some u) txid w =
    (Raise (Exn InvalidTransactionError
              ("error looking up transaction_id=" ++ txid)%string),
     logged "Error looking up transaction_id with url=%s, status_code=%d"
       [PyStr target; PyInt (status_code r)]
       (requested (fetch_request target) w)).
Proof.
  intros Hu Hr Hs. unfold fetch_tx, bind, lift, requests_get.
  rewrite Hu. fold (fetch_request target). rewrite Hr.
  apply Z.eqb_neq in Hs. rewrite Hs. cbn [negb].
  unfold logging. rewrite py_mod_transaction_id. reflexivity.
Qed.

(** ** The issuer information *)

Lemma get_remote_json_bad_status the_url w r :
  remote w (List.length (sent w)) (json_request the_url) = Return r ->
  status_code r <> 200 ->
  get_remote_json the_url w =
    (Return PyNone,
     logged "Error looking up url=%s, status_code=%d"
       [the_url; PyInt (status_code r)] (requested (json_request the_url) w)).
Proof.
  intros Hr Hs. unfold get_remote_json, bind, requests_get.
  fold (json_request the_url). rewrite Hr.
  apply Z.eqb_neq in Hs. now rewrite Hs.
Qed.

Lemma collect_revoked_assertions_bad_status cm w the_url r :
  v2ish cm = true ->
  revocation_list cm = Return (Some the_url) ->
  remote w (List.length (sent w)) (json_request the_url) = Return r ->
  status_code r <> 200 ->
  collect_revoked_assertions cm w =
    (Return [],
     logged "Error looking up url=%s, status_code=%d"
       [the_url; PyInt (status_code r)] (requested (json_request the_url) w)).
Proof.
  intros Hv Hl Hr Hs. unfold collect_revoked_assertions, revocation_list in *.
  rewrite Hv. unfold bind at 1. unfold lift at 1.
  destruct (getitem (certificate_json cm) "badge") as [badge|]; cbn in *;
    try discriminate.
  destruct (getitem badge "issuer") as [issuer|]; cbn in *; try discriminate.
  destruct (py_in "revocationList" issuer) as [[|]|]; cbn in *; try discriminate.
  destruct (getitem issuer "revocationList") as [u|]; cbn in *; try discriminate.
  injection Hl as ->. unfold bind at 1. unfold lift at 1.
  unfold bind at 1. now rewrite (get_remote_json_bad_status _ _ _ Hr Hs).
Qed.

Lemma get_issuer_info_profile cm w issuer_json w1 ra w2 :
  get_remote_json (PyStr (issuer_id cm)) w = (Return issuer_json, w1) ->
  truthy issuer_json = true ->
  collect_revoked_assertions cm w1 = (Return ra, w2) ->
  get_issuer_info cm w = (issuer_info_of_profile issuer_json ra, w2).
Proof.
  intros Hj Ht Hra. unfold get_issuer_info.
  rewrite (bind_Return _ _ _ _ _ Hj), Ht. cbn [negb].
  now rewrite (bind_Return _ _ _ _ _ Hra).
Qed.





(** C7.  For a V2 or V2-alpha certificate whose revocation list is
    answered with a status other than 200, [get_issuer_info] goes on with
    no revoked assertions: it logs the error and gives what the profile
    gives with the empty list, with [revoked_assertions] empty for a
    profile with [@context] and not passed for a profile without. *)
Theorem get_issuer_info_revocation_list_bad_status
    cm w issuer_json w1 the_url r :
  v2ish cm = true ->
  get_remote_json (PyStr (issuer_id cm)) w = (Return issuer_json, w1) ->
  truthy issuer_json = true ->
  revocation_list cm = Return (Some the_url) ->
  remote w1 (List.length (sent w1)) (json_request the_url) = Return r ->
  status_code r <> 200 ->
  get_issuer_info cm w =
    (issuer_info_of_profile issuer_json [],
     logged "Error looking up url=%s, status_code=%d"
       [the_url; PyInt (status_code r)] (requested (json_request the_url) w1)) /\
  forall info,
    issuer_info_of_profile issuer_json [] = Return info ->
    (py_in "@context" issuer_json = Return true ->
     revoked_assertions info = Some []) /\
    (py_in "@context" issuer_json = Return false ->
     revoked_assertions info = None).
Proof.
  intros Hv Hj Ht Hl Hr Hs. split.
  - apply get_issuer_info_profile with (w1 := w1); try assumption.
    now apply collect_revoked_assertions_bad_status.
  - intros info. unfold issuer_info_of_profile.
    destruct (py_in "@context" issuer_json) as [[|]|]; cbn; try discriminate;
      intros H; (split; [intros [= ] | intros [= ]]).
    + apply obind_Return_inv in H. destruct H as (hp & _ & H).
      apply obind_Return_inv in H. destruct H as (ks & _ & H).
      now injection H as <-.
    + apply obind_Return_inv in H. destruct H as (key & _ & H).
      apply obind_Return_inv in H. destruct H as (rkey & _ & H).
      now injection H as <-.
Qed.

(** C8.  For a profile without [@context], [get_issuer_info] takes one
    key, the [key] field of the first entry of [issuerKeys], whatever
    entries follow, and makes an issuer key of it that has no dates.  With
    revoked assertions collected from the revocation list it returns that
    key alone, with those assertions and no revocation keys; with none
    collected it returns that key and one revocation key, made in the same
    way of the first entry of [revocationKeys], and passes no revoked
    assertions. *)
Theorem get_issuer_info_V1 cm w issuer_json w1 ra w2 first others key :
  get_remote_json (PyStr (issuer_id cm)) w = (Return issuer_json, w1) ->
  truthy issuer_json = true ->
  collect_revoked_assertions cm w1 = (Return ra, w2) ->
  py_in "@context" issuer_json = Return false ->
  getitem issuer_json "issuerKeys" = Return (PyList (first :: others)) ->
  getitem first "key" = Return key ->
  (ra <> [] ->
   get_issuer_info cm w =
     (Return {| issuer_keys :=
                  [{| public_key := key; created := None; expires := None;
                      revoked := None |}];
                revocation_keys := None;
                revoked_assertions := Some ra |}, w2)) /\
  (ra = [] ->
   forall rfirst rothers rkey,
     getitem issuer_json "revocationKeys" = Return (PyList (rfirst :: rothers)) ->
     getitem rfirst "key" = Return rkey ->
     get_issuer_info cm w =
       (Return {| issuer_keys :=
                    [{| public_key := key; created := None; expires := None;
                        revoked := None |}];
                  revocation_keys :=
                    Some [{| public_key := rkey; created := None;
                             expires := None; revoked := None |}];
                  revoked_assertions := None |}, w2)).
Proof.
  intros Hj Ht Hra Hc Hks Hk.
  rewrite (get_issuer_info_profile _ _ _ _ _ _ Hj Ht Hra).
  unfold issuer_info_of_profile, first_key. rewrite Hc, Hks.
  cbn [obind getindex nth_error]. rewrite Hk. cbn [obind].
  split.
  - intros Hne. destruct ra; [contradiction | reflexivity].
  - intros -> rfirst rothers rkey Hrks Hrk. rewrite Hrks.
    cbn [obind getindex nth_error]. now rewrite Hrk.
Qed.

(** ** More on the fallback connector and the factory *)

Lemma try_connectors_outcome txid cs :
  forall acc w,
    match fst (try_connectors lookup_tx txid cs acc w) with
    | Return r => obj_truthy r = true
    | Raise e =>
        exists es,
          e = ExnList InvalidTransactionError (acc ++ es) /\
          (List.length es <= List.length cs)%nat
    end.
Proof.
  induction cs as [|c cs IH]; intros acc w; cbn [try_connectors].
  - cbn. exists []. now rewrite app_nil_r.
  - destruct (lookup_tx c txid w) as [[r|e] w1].
    + destruct (obj_truthy r) eqn:Hr; [cbn; exact Hr|].
      specialize (IH acc w1).
      destruct (fst (try_connectors lookup_tx txid cs acc w1)); [exact IH|].
      destruct IH as (es & -> & Hlen). exists es. split; [reflexivity|]. cbn. lia.
    + unfold bind, logging.
      specialize (IH (acc ++ [e])%list
                    {| remote := remote w1; sent := sent w1;
                       logs := (logs w1 ++
                                [{| level := WARNING;
                                    log_msg := "Error looking up transaction, trying more connectors";
                                    log_args := [] |}])%list |}).
      destruct (fst (try_connectors lookup_tx txid cs (acc ++ [e]) _)); [exact IH|].
      destruct IH as (es & -> & Hlen). exists (e :: es). split.
      * now rewrite <- app_assoc.
      * cbn. lia.
Qed.

(** X1.  Whatever its connectors are and do, a fallback connector either
    returns a result that is not empty or raises an
    [InvalidTransactionError] holding a list of at most as many exceptions
    as it has connectors: no exception of a connector escapes, and no
    empty result is handed on. *)
Theorem FallbackConnector_outcome chain cs txid w :
  match fst (lookup_tx (FallbackConnector chain cs) txid w) with
  | Return r => obj_truthy r = true
  | Raise e =>
      exists es,
        e = ExnList InvalidTransactionError es /\
        (List.length es <= List.length cs)%nat
  end.
Proof.
  rewrite lookup_tx_FallbackConnector.
  exact (try_connectors_outcome txid cs [] w).
Qed.

(** X2.  The constructors accept exactly their two chains: the UTXO
    connectors and the fallback connector are built for bitcoin mainnet
    and testnet, the etherscan connector (with a str key) for ethereum
    mainnet and ropsten, and for every other chain the constructor raises
    a plain [Exception]. *)
Theorem constructors_accept chain k :
  (if Chain_eqb chain bitcoin_mainnet || Chain_eqb chain bitcoin_testnet then
     (exists u, BlockchainInfoConnector_init chain = Return (BlockchainInfoConnector u)) /\
     (exists u, BlockcypherConnector_init chain = Return (BlockcypherConnector u)) /\
     (exists u1 u2,
        FallbackConnector_init chain
        = Return (FallbackConnector chain
                    [BlockchainInfoConnector u1; BlockcypherConnector u2]))
   else
     (exists m, BlockchainInfoConnector_init chain = Raise (Exn Exception m)) /\
     (exists m, BlockcypherConnector_init chain = Raise (Exn Exception m)) /\
     (exists m, FallbackConnector_init chain = Raise (Exn Exception m))) /\
  (if Chain_eqb chain ethereum_mainnet || Chain_eqb chain ethereum_ropsten then
     exists u ts, EtherscanConnector_init chain (PyStr k) = Return (EtherscanConnector u ts)
   else
     exists m, EtherscanConnector_init chain (PyStr k) = Raise (Exn Exception m)).
Proof.
  destruct chain; cbn; repeat split; eexists; try eexists; reflexivity.
Qed.

(** The API token the factory reads from its options. *)
Lemma factory_by_family chain options :
  createTransactionLookupConnector chain options =
    if test_chain chain then Return (MockConnector chain)
    else match blockchain_type chain with
         | ethereum =>
             EtherscanConnector_init chain
               (match options with
                | Some d => match assoc "etherscan_api_token" d with
                            | Some t => t
                            | None => PyStr EmptyString
                            end
                | None => PyStr EmptyString
                end)
         | _ => FallbackConnector_init chain
         end.
Proof.
  unfold createTransactionLookupConnector, test_chain.
  destruct (Chain_eqb chain mockchain || Chain_eqb chain bitcoin_regtest);
    [reflexivity|].
  destruct (blockchain_type chain); try reflexivity.
  destruct options as [[|kv d]|]; reflexivity.
Qed.

Lemma EtherscanConnector_init_inv chain api_key c :
  EtherscanConnector_init chain api_key = Return c ->
  exists u ts, c = EtherscanConnector u ts.
Proof.
  unfold EtherscanConnector_init.
  destruct (Chain_eqb chain ethereum_mainnet);
    [|destruct (Chain_eqb chain ethereum_ropsten)]; cbn [obind];
    try discriminate; destruct api_key; try discriminate;
    intros [= <-]; eexists _, _; reflexivity.
Qed.

(** X3.  What the factory returns is decided by the chain alone, in the
    order of its tests: the mock connector when the chain is the mock chain
    or regtest; otherwise an etherscan connector when the chain is of the
    ethereum family; otherwise a fallback connector over blockchain.info
    and blockcypher, in that order.  The options never change the class of
    the connector, and no chain of the ethereum family is given a UTXO
    connector. *)
Theorem factory_connector_class chain options c :
  createTransactionLookupConnector chain options = Return c ->
  if test_chain chain then c = MockConnector chain
  else
    match blockchain_type chain with
    | ethereum => exists u ts, c = EtherscanConnector u ts
    | _ =>
        exists u1 u2,
          c = FallbackConnector chain
                [BlockchainInfoConnector u1; BlockcypherConnector u2]
    end.
Proof.
  rewrite factory_by_family.
  destruct (test_chain chain); [now intros [= <-]|].
  destruct (blockchain_type chain); intros H;
    (now apply FallbackConnector_init_inv)
    || (now apply EtherscanConnector_init_inv in H).
Qed.

(** ** Formatting an address *)




Lemma py_mod_BlockchainInfo chain u txid :
  BlockchainInfoConnector_init chain = Return (BlockchainInfoConnector u) ->
  py_mod u txid = Return (BlockchainInfo_address chain txid).
Proof.
  unfold BlockchainInfoConnector_init, BlockchainInfo_address, py_mod.
  destruct chain; cbn [Chain_eqb]; intros [= <-]; cbn;
    rewrite ?append_empty_r; reflexivity.
Qed.

Lemma py_mod_Blockcypher chain u txid :
  BlockcypherConnector_init chain = Return (BlockcypherConnector u) ->
  py_mod u txid = Return (Blockcypher_address chain txid).
Proof.
  unfold BlockcypherConnector_init, Blockcypher_address, py_mod.
  destruct chain; cbn [Chain_eqb]; intros [= <-]; cbn;
    rewrite ?append_empty_r; reflexivity.
Qed.



(** ** Requests and log records *)

Lemma fetch_tx_cases u txid target w :
  py_mod u txid = Return target ->
  fetch_tx (Some u) txid w =
    match remote w (List.length (sent w)) (fetch_request target) with
    | Raise e => (Raise e, requested (fetch_request target) w)
    | Return r =>
        if status_code r =? 200 then (json r, requested (fetch_request target) w)
        else
          (Raise (Exn InvalidTransactionError
                    ("error looking up transaction_id=" ++ txid)%string),
           logged "Error looking up transaction_id with url=%s, status_code=%d"
             [PyStr target; PyInt (status_code r)]
             (requested (fetch_request target) w))
    end.
Proof.
  intros Hu. unfold fetch_tx, bind, lift, requests_get. rewrite Hu.
  fold (fetch_request target).
  destruct (remote w (List.length (sent w)) (fetch_request target)) as [r|e];
    [|reflexivity].
  destruct (status_code r =? 200); cbn [negb]; [reflexivity|].
  unfold logging. now rewrite py_mod_transaction_id.
Qed.

Lemma fetch_tx_sent u txid target w :
  py_mod u txid = Return target ->
  sent (snd (fetch_tx (Some u) txid w)) = (sent w ++ [fetch_request target])%list.
Proof.
  intros Hu. rewrite (fetch_tx_cases _ _ _ _ Hu).
  destruct (remote w (List.length (sent w)) (fetch_request target)) as [r|e];
    [|reflexivity].
  now destruct (status_code r =? 200).
Qed.

(** X4.  Once the address has been made from the template and the
    transaction id, [fetch_tx] sends exactly one request, to that address,
    whatever the remote side answers: a response of status 200, a response
    of another status, or an exception of [requests.get].  It writes to the
    log only for a response of another status, and then one error record
    that holds the address and the status. *)
Theorem fetch_tx_one_request u txid target w :
  py_mod u txid = Return target ->
  sent (snd (fetch_tx (Some u) txid w))
  = (sent w ++ [fetch_request target])%list /\
  match remote w (List.length (sent w)) (fetch_request target) with
  | Raise e =>
      fst (fetch_tx (Some u) txid w) = Raise e /\
      logs (snd (fetch_tx (Some u) txid w)) = logs w
  | Return r =>
      if status_code r =? 200 then
        fst (fetch_tx (Some u) txid w) = json r /\
        logs (snd (fetch_tx (Some u) txid w)) = logs w
      else
        fst (fetch_tx (Some u) txid w)
        = Raise (Exn InvalidTransactionError
                   ("error looking up transaction_id=" ++ txid)%string) /\
        logs (snd (fetch_tx (Some u) txid w))
        = (logs w ++
           [{| level := ERROR;
               log_msg := "Error looking up transaction_id with url=%s, status_code=%d";
               log_args := [PyStr target; PyInt (status_code r)] |}])%list
  end.
Proof.
  intros Hu. split; [now apply fetch_tx_sent|].
  rewrite (fetch_tx_cases _ _ _ _ Hu).
  destruct (remote w (List.length (sent w)) (fetch_request target)) as [r|e];
    [|now split].
  destruct (status_code r =? 200); now split.
Qed.

Lemma parse_utxo_world n j w :
  snd (parse_utxo n j w) = w \/
  parse_utxo n j w =
    (Raise (Exn InvalidTransactionError missing_script),
     logged "transaction response is missing op_return script: %s" [j] w).
Proof.
  destruct j; try (left; destruct n; reflexivity).
  destruct n; unfold parse_utxo, BlockchainInfo_parse_tx, Blockcypher_parse_tx,
    bind, lift.
  - destruct (getitem (PyDict d) "time"); [|now left].
    destruct (let* inputs := getitem (PyDict d) "inputs" in _); [|now left].
    destruct (let* out := getitem (PyDict d) "out" in _) as [st|]; [|now left].
    destruct (truthy (fst st)); cbn [negb]; [now left | now right].
  - destruct (getitem (PyDict d) "received"); [|now left].
    destruct (let* inputs := getitem (PyDict d) "inputs" in _); [|now left].
    destruct (let* out := getitem (PyDict d) "outputs" in _) as [st|]; [|now left].
    destruct (truthy (fst st)); cbn [negb]; [now left | now right].
Qed.

(** X5.  The two UTXO [parse_tx] never go to the network, and they leave
    the log alone but for one case: when they raise the
    [InvalidTransactionError] for a missing script they have logged the
    response as one error record. *)
Theorem parse_tx_utxo_effects n j w :
  sent (snd (parse_utxo n j w)) = sent w /\
  (logs (snd (parse_utxo n j w)) = logs w \/
   fst (parse_utxo n j w) = Raise (Exn InvalidTransactionError missing_script) /\
   logs (snd (parse_utxo n j w))
   = (logs w ++ [{| level := ERROR;
                    log_msg := "transaction response is missing op_return script: %s";
                    log_args := [j] |}])%list).
Proof.
  destruct (parse_utxo_world n j w) as [H | H]; rewrite H.
  - split; [reflexivity | now left].
  - split; [reflexivity | right; split; reflexivity].
Qed.

Lemma lookup_tx_utxo_sent c txid target w :
  utxo_style c = true ->
  (forall u, url_of c = Some u -> py_mod u txid = Return target) ->
  sent (snd (lookup_tx c txid w)) = (sent w ++ [fetch_request target])%list.
Proof.
  intros Hc Hu. rewrite lookup_tx_fetch_parse by (destruct c; try discriminate Hc; exact I).
  assert (Hp : forall j w1, sent (snd (parse_tx c j w1)) = sent w1).
  { intros j w1. destruct c; try discriminate Hc; cbn [parse_tx].
    - destruct (parse_utxo_world BlockchainInfo j w1) as [H | H];
        cbn [parse_utxo] in H; now rewrite H.
    - destruct (parse_utxo_world Blockcypher j w1) as [H | H];
        cbn [parse_utxo] in H; now rewrite H. }
  assert (Hf : exists u, url_of c = Some u)
    by (destruct c; try discriminate Hc; now eexists).
  destruct Hf as [u Hurl]. rewrite Hurl.
  pose proof (fetch_tx_sent u txid target w (Hu u Hurl)) as Hs.
  unfold bind. destruct (fetch_tx (Some u) txid w) as [[j|e] w1]; cbn [snd] in *.
  - now rewrite Hp.
  - exact Hs.
Qed.

Lemma BlockchainInfo_lookup_sent chain c txid w :
  BlockchainInfoConnector_init chain = Return c ->
  sent (snd (lookup_tx c txid w))
  = (sent w ++ [fetch_request (BlockchainInfo_address chain txid)])%list.
Proof.
  intros Hc.
  assert (Hu : exists u, c = BlockchainInfoConnector u).
  { unfold BlockchainInfoConnector_init in Hc.
    destruct chain; cbn in Hc; try discriminate Hc; injection Hc as <-;
      now eexists. }
  destruct Hu as [u ->]. apply lookup_tx_utxo_sent; [reflexivity|].
  intros u' [= <-]. now apply py_mod_BlockchainInfo.
Qed.

Lemma Blockcypher_lookup_sent chain c txid w :
  BlockcypherConnector_init chain = Return c ->
  sent (snd (lookup_tx c txid w))
  = (sent w ++ [fetch_request (Blockcypher_address chain txid)])%list.
Proof.
  intros Hc.
  assert (Hu : exists u, c = BlockcypherConnector u).
  { unfold BlockcypherConnector_init in Hc.
    destruct chain; cbn in Hc; try discriminate Hc; injection Hc as <-;
      now eexists. }
  destruct Hu as [u ->]. apply lookup_tx_utxo_sent; [reflexivity|].
  intros u' [= <-]. now apply py_mod_Blockcypher.
Qed.

(** X6.  A lookup through a blockchain.info or blockcypher connector, as
    the constructors build them, sends exactly one request, whatever
    happens: to the provider's address for the chain with the transaction
    id put in. *)
Theorem utxo_lookup_request chain c txid w :
  (BlockchainInfoConnector_init chain = Return c ->
   sent (snd (lookup_tx c txid w))
   = (sent w ++ [fetch_request (BlockchainInfo_address chain txid)])%list) /\
  (BlockcypherConnector_init chain = Return c ->
   sent (snd (lookup_tx c txid w))
   = (sent w ++ [fetch_request (Blockcypher_address chain txid)])%list).
Proof.
  split; intros Hc.
  - now apply BlockchainInfo_lookup_sent.
  - now apply Blockcypher_lookup_sent.
Qed.

(** X7.  A lookup through a fallback connector, as its constructor builds
    it, asks blockchain.info first, and blockcypher only when
    blockchain.info has failed: one request when the first lookup returns,
    two when it raises, and never more, each provider being asked once. *)
Theorem FallbackConnector_requests chain a b txid w :
  FallbackConnector_init chain = Return (FallbackConnector chain [a; b]) ->
  sent (snd (lookup_tx (FallbackConnector chain [a; b]) txid w)) =
    match fst (lookup_tx a txid w) with
    | Return _ =>
        (sent w ++ [fetch_request (BlockchainInfo_address chain txid)])%list
    | Raise _ =>
        (sent w ++ [fetch_request (BlockchainInfo_address chain txid);
                    fetch_request (Blockcypher_address chain txid)])%list
    end.
Proof.
  intros Hinit.
  assert (Ha : BlockchainInfoConnector_init chain = Return a /\
               BlockcypherConnector_init chain = Return b).
  { unfold FallbackConnector_init in Hinit.
    destruct (BlockchainInfoConnector_init chain) as [a'|]; cbn in Hinit;
      [|discriminate Hinit].
    destruct (BlockcypherConnector_init chain) as [b'|]; cbn in Hinit;
      [|discriminate Hinit].
    now injection Hinit as <- <-. }
  destruct Ha as [Ha Hb].
  destruct (FallbackConnector_init_inv _ _ Hinit) as (u1 & u2 & [= -> ->]).
  pose proof (BlockchainInfo_lookup_sent chain (BlockchainInfoConnector u1) txid w Ha)
    as Hs1.
  rewrite lookup_tx_FallbackConnector. cbn [try_connectors].
  destruct (lookup_tx (BlockchainInfoConnector u1) txid w) as [[r|e] w1] eqn:H1;
    cbn [fst snd] in *.
  - assert (Hr : obj_truthy r = true)
      by exact (never_empty_BlockchainInfo u1 txid w r w1 H1).
    rewrite Hr. exact Hs1.
  - unfold bind at 1. unfold logging at 1.
    match goal with
    | |- context [lookup_tx (BlockcypherConnector u2) txid ?W] =>
        change W with (warned w1)
    end.
    pose proof (Blockcypher_lookup_sent chain (BlockcypherConnector u2) txid
                  (warned w1) Hb) as Hs2.
    destruct (lookup_tx (BlockcypherConnector u2) txid (warned w1))
      as [[r|e2] w2] eqn:H2; cbn [fst snd] in *.
    + assert (Hr : obj_truthy r = true)
        by exact (never_empty_Blockcypher u2 txid _ r w2 H2).
      rewrite Hr. cbn [snd].
      rewrite Hs2. unfold warned. cbn. rewrite Hs1. now rewrite <- app_assoc.
    + cbn. rewrite Hs2. unfold warned. cbn. rewrite Hs1. now rewrite <- app_assoc.
Qed.

Lemma Etherscan_parse_tx_sent ts j w :
  sent (snd (Etherscan_parse_tx ts j w)) = sent w \/
  exists target,
    sent (snd (Etherscan_parse_tx ts j w))
    = (sent w ++ [fetch_request target])%list.
Proof.
  unfold Etherscan_parse_tx, bind, lift.
  destruct (let* result := getitem j "result" in getitem result "from");
    [|now left].
  destruct (let* result := getitem j "result" in getitem result "input")
    as [script|]; [|now left].
  destruct (let* result := getitem j "result" in getitem result "blockNumber")
    as [block_no|]; [|now left].
  destruct (truthy script); cbn [negb]; [|now left].
  destruct (truthy block_no); cbn [negb]; [|now left].
  destruct (py_int16 block_no) as [n|]; [|now left].
  destruct (py_mod ts (py_str_of_int n)) as [ts_url|]; [|now left].
  right. exists ts_url. unfold requests_get.
  fold (fetch_request ts_url).
  destruct (remote w (List.length (sent w)) (fetch_request ts_url)) as [r|];
    [|reflexivity].
  destruct (status_code r =? 200); cbn [negb].
  - destruct (let* body := json r in _) as [date_time|]; [|reflexivity].
    now destruct (py_int date_time).
  - unfold logging.
    now destruct (match block_no with PyStr b => _ | _ => _ end).
Qed.

(** X8.  A lookup through an etherscan connector sends at most two
    requests, the second one from [parse_tx] for the time of the block;
    the requests sent before stay as they were. *)
Theorem Etherscan_lookup_requests u ts txid w :
  exists rest,
    sent (snd (lookup_tx (EtherscanConnector u ts) txid w)) = (sent w ++ rest)%list /\
    (List.length rest <= 2)%nat.
Proof.
  rewrite lookup_tx_fetch_parse by exact I. cbn [url_of parse_tx].
  pose proof (Hfetch := fun target H => fetch_tx_sent u txid target w H).
  unfold bind.
  destruct (py_mod u txid) as [target|e] eqn:Hu.
  - specialize (Hfetch target eq_refl).
    destruct (fetch_tx (Some u) txid w) as [[j|e] w1]; cbn [snd] in *.
    + cbn [parse_tx].
      destruct (Etherscan_parse_tx_sent ts j w1) as [H | [t2 H]]; rewrite H,
        Hfetch.
      * exists [fetch_request target]. split; [reflexivity | cbn; lia].
      * exists [fetch_request target; fetch_request t2].
        split; [now rewrite <- app_assoc | cbn; lia].
    + exists [fetch_request target]. split; [assumption | cbn; lia].
  - exists []. split; [|cbn; lia].
    unfold fetch_tx, bind, lift. rewrite Hu. cbn. now rewrite app_nil_r.
Qed.



(** ** The outputs of a transaction, in full *)

Lemma utxo_output_readable n st o :
  readable_output n o = true ->
  utxo_output n st o =
    Return (match data_output n o with Some p => p | None => fst st end,
            (snd st ++ spent_addresses n [o])%list).
Proof.
  destruct st as [s r].
  unfold readable_output, spent_addresses, data_output, value_output.
  cbn [flat_map fst snd]. rewrite app_nil_r.
  unfold zero_value, payload, spent_address, utxo_output,
    BlockchainInfo_output, Blockcypher_output, set_add.
  destruct n; intros H;
    destruct (py_get o "value" (PyInt 1)) as [v|]; cbn in *; try discriminate.
  - destruct (py_int v) as [z|]; cbn in *; try discriminate.
    destruct (z =? 0).
    + destruct (getitem o "script") as [sc|]; cbn in *; try discriminate.
      destruct (slice_from sc 4); cbn in *; try discriminate.
      now rewrite app_nil_r.
    + destruct (py_get o "spent" PyNone) as [sp|]; cbn in *; try discriminate.
      destruct (truthy sp); cbn in *; [|now rewrite app_nil_r].
      destruct (py_get o "addr" PyNone) as [a|]; cbn in *; try discriminate.
      rewrite orb_false_r in H. now rewrite H.
  - destruct (py_float v) as [x|]; cbn in *; try discriminate.
    destruct (float_is_zero x).
    + destruct (getitem o "data_hex"); cbn in *; try discriminate.
      now rewrite app_nil_r.
    + destruct (py_get o "spent_by" PyNone) as [sp|]; cbn in *; try discriminate.
      destruct (truthy sp); cbn in *; [|now rewrite app_nil_r].
      destruct (py_get o "addresses" PyNone) as [a|]; cbn in *; try discriminate.
      destruct (getindex a 0) as [a0|]; cbn in *; try discriminate.
      rewrite orb_false_r in H. now rewrite H.
Qed.

Lemma for_each_readable n l :
  forallb (readable_output n) l = true ->
  forall st,
    for_each (utxo_output n) st l =
      Return (last_payload n (fst st) l, (snd st ++ spent_addresses n l)%list).
Proof.
  induction l as [|o l IH]; intros H st.
  - destruct st. cbn. now rewrite app_nil_r.
  - cbn [forallb] in H. apply andb_prop in H. destruct H as [Ho Hl].
    cbn [for_each]. rewrite (utxo_output_readable n st o Ho). cbn [obind].
    rewrite (IH Hl). cbn [fst snd last_payload].
    unfold spent_addresses. cbn [flat_map]. now rewrite app_nil_r, <- app_assoc.
Qed.

Lemma parse_utxo_readable n j time sk outs w :
  transaction_response n j time sk outs ->
  forallb (readable_output n) outs = true ->
  parse_utxo n j w =
    if truthy (last_payload n PyNone outs) then
      (Return (ObjTransactionData
                 {| signing_key := sk; script := last_payload n PyNone outs;
                    date_time_utc := time;
                    revoked_addresses := Some (spent_addresses n outs) |}), w)
    else
      (Raise (Exn InvalidTransactionError missing_script),
       logged "transaction response is missing op_return script: %s" [j] w).
Proof.
  intros Hj Houts. rewrite (parse_utxo_loop _ _ _ _ _ _ Hj).
  destruct (transaction_response_dict _ _ _ _ _ Hj) as [d ->].
  unfold bind, lift. rewrite (for_each_readable n outs Houts). cbn [fst snd app].
  now destruct (truthy (last_payload n PyNone outs)).
Qed.

Lemma value_output_readable n o :
  value_output n o = true -> readable_output n o = true /\ data_output n o = None.
Proof.
  unfold readable_output, data_output, value_output. intros H.
  rewrite H. split; [reflexivity|].
  now destruct (zero_value n o) as [[|]|].
Qed.

Lemma last_payload_values n l :
  forallb (value_output n) l = true -> forall s, last_payload n s l = s.
Proof.
  induction l as [|o l IH]; intros H s; [reflexivity|].
  cbn [forallb] in H. apply andb_prop in H. destruct H as [Ho Hl].
  cbn [last_payload]. rewrite (proj2 (value_output_readable n o Ho)).
  now apply IH.
Qed.

Lemma last_payload_app n l1 l2 s :
  last_payload n s (l1 ++ l2) = last_payload n (last_payload n s l1) l2.
Proof.
  revert s. induction l1 as [|o l1 IH]; intros s; [reflexivity|].
  cbn [app last_payload]. apply IH.
Qed.

(** X10.  When a transaction has several outputs of value zero, the two
    UTXO [parse_tx] take the payload of the last one: the record has that
    payload as its script, and if that payload is empty the
    [InvalidTransactionError] for a missing script is raised, whatever the
    outputs before it carry. *)
Theorem parse_tx_last_zero_value_output n j time sk pre z post p w :
  transaction_response n j time sk (pre ++ z :: post) ->
  forallb (readable_output n) pre = true ->
  data_output n z = Some p ->
  forallb (value_output n) post = true ->
  parse_utxo n j w =
    if truthy p then
      (Return (ObjTransactionData
                 {| signing_key := sk; script := p; date_time_utc := time;
                    revoked_addresses :=
                      Some (spent_addresses n (pre ++ z :: post)) |}), w)
    else
      (Raise (Exn InvalidTransactionError missing_script),
       logged "transaction response is missing op_return script: %s" [j] w).
Proof.
  intros Hj Hpre Hz Hpost.
  assert (Hall : forallb (readable_output n) (pre ++ z :: post) = true).
  { rewrite forallb_app, Hpre. cbn [forallb andb].
    unfold readable_output at 1. rewrite Hz, orb_true_r. cbn [andb].
    apply forallb_forall. intros o Ho.
    rewrite forallb_forall in Hpost.
    exact (proj1 (value_output_readable n o (Hpost o Ho))). }
  rewrite (parse_utxo_readable _ _ _ _ _ _ Hj Hall).
  assert (Hlast : last_payload n PyNone (pre ++ z :: post) = p).
  { rewrite last_payload_app. cbn [last_payload]. rewrite Hz.
    now apply last_payload_values. }
  now rewrite Hlast.
Qed.

(** X11.  The revoked addresses of a record of the two UTXO [parse_tx]
    are the addresses of the outputs that have a value other than zero
    and are spent, and no others; an output of value zero never adds
    one. *)
Theorem parse_tx_revoked_addresses n j time sk outs w t w' :
  transaction_response n j time sk outs ->
  forallb (readable_output n) outs = true ->
  parse_utxo n j w = (Return (ObjTransactionData t), w') ->
  exists revoked,
    revoked_addresses t = Some revoked /\
    forall a,
      In a revoked <->
      exists o, In o outs /\ value_output n o = true /\
                spent_address n o = Return (Some a).
Proof.
  intros Hj Houts H. rewrite (parse_utxo_readable _ _ _ _ _ _ Hj Houts) in H.
  destruct (truthy (last_payload n PyNone outs)); [|discriminate H].
  injection H as <- _. exists (spent_addresses n outs). split; [reflexivity|].
  intros a. unfold spent_addresses. rewrite in_flat_map. split.
  - intros (o & Ho & Ha). exists o. split; [exact Ho|].
    destruct (value_output n o); [|contradiction]. split; [reflexivity|].
    destruct (spent_address n o) as [[a'|]|]; try contradiction.
    destruct Ha as [<- | []]. reflexivity.
  - intros (o & Ho & Hv & Ha). exists o. split; [exact Ho|].
    rewrite Hv, Ha. now left.
Qed.

(** ** More on etherscan *)

(** X12.  [EtherscanConnector.parse_tx] looks at the input data first and
    at the block number second: a transaction without input data, and a
    transaction with input data that is in no block yet, are each refused
    with an [InvalidTransactionError] of their own, after the response
    has been logged and before any request for the time of the block is
    sent. *)
Theorem Etherscan_parse_tx_refused ts j from input block_no w :
  Etherscan_response j from input block_no ->
  (truthy input = false ->
   Etherscan_parse_tx ts j w =
     (Raise (Exn InvalidTransactionError "transaction response is missing input"),
      logged "transaction response is missing input: %s" [j] w)) /\
  (truthy input = true ->
   truthy block_no = false ->
   Etherscan_parse_tx ts j w =
     (Raise (Exn InvalidTransactionError "transaction is not yet confirmed"),
      logged "transaction is not yet confirmed: %s" [j] w)).
Proof.
  intros (result & Hr & Hf & Hi & Hb).
  unfold Etherscan_parse_tx, bind, lift. rewrite Hr. cbn [obind].
  rewrite Hf, Hi, Hb. split.
  - now intros ->.
  - now intros -> ->.
Qed.

(** ** More on the issuer information *)

Lemma get_remote_json_cases the_url w :
  get_remote_json the_url w =
    match remote w (List.length (sent w)) (json_request the_url) with
    | Raise e => (Raise e, requested (json_request the_url) w)
    | Return r =>
        if status_code r =? 200 then
          match json r with
          | Return remote_json =>
              (Return remote_json,
               noted "Found results at url=%s" [the_url]
                 (requested (json_request the_url) w))
          | Raise e => (Raise e, requested (json_request the_url) w)
          end
        else
          (Return PyNone,
           logged "Error looking up url=%s, status_code=%d"
             [the_url; PyInt (status_code r)]
             (requested (json_request the_url) w))
    end.
Proof.
  unfold get_remote_json, bind, requests_get, lift.
  fold (json_request the_url).
  destruct (remote w (List.length (sent w)) (json_request the_url)) as [r|e];
    [|reflexivity].
  destruct (status_code r =? 200); cbn [negb]; [|reflexivity].
  now destruct (json r).
Qed.

Lemma get_remote_json_sent the_url w :
  sent (snd (get_remote_json the_url w))
  = (sent w ++ [json_request the_url])%list.
Proof.
  rewrite get_remote_json_cases.
  destruct (remote w (List.length (sent w)) (json_request the_url)) as [r|e];
    [|reflexivity].
  destruct (status_code r =? 200); [|reflexivity].
  now destruct (json r).
Qed.

(** X13.  [get_remote_json] sends exactly one request, with a timeout of
    ten seconds and no headers, whatever the answer is, and it has no
    exception of its own: what it raises is what [requests.get] raised or,
    on a response of status 200, what [r.json()] raised; every other
    status gives None. *)
Theorem get_remote_json_outcome the_url w :
  sent (snd (get_remote_json the_url w))
  = (sent w ++ [{| req_url := the_url; req_headers := None;
                   req_timeout := Some 10 |}])%list /\
  match remote w (List.length (sent w)) (json_request the_url) with
  | Raise e => fst (get_remote_json the_url w) = Raise e
  | Return r =>
      fst (get_remote_json the_url w)
      = if status_code r =? 200 then json r else Return PyNone
  end.
Proof.
  split; [apply get_remote_json_sent|].
  rewrite get_remote_json_cases.
  destruct (remote w (List.length (sent w)) (json_request the_url)) as [r|e];
    [|reflexivity].
  destruct (status_code r =? 200); [|reflexivity].
  now destruct (json r).
Qed.

(** X14.  When the issuer profile cannot be had, because the response has
    a status other than 200 or because its JSON is empty (null, an empty
    object and the like), [get_issuer_info] raises the [Exception] that
    names the issuer URL and does not go on to any revocation list: the
    one request for the profile is all it has sent. *)
Theorem get_issuer_info_no_profile cm w r :
  remote w (List.length (sent w)) (json_request (PyStr (issuer_id cm))) = Return r ->
  status_code r <> 200 \/
  (exists body, json r = Return body /\ truthy body = false) ->
  fst (get_issuer_info cm w)
  = Raise (Exn Exception ("Issuer URL returned no results " ++ issuer_id cm)) /\
  sent (snd (get_issuer_info cm w))
  = (sent w ++ [json_request (PyStr (issuer_id cm))])%list.
Proof.
  intros Hr Hbad. unfold get_issuer_info, bind.
  pose proof (get_remote_json_sent (PyStr (issuer_id cm)) w) as Hs.
  rewrite get_remote_json_cases, Hr in *.
  destruct Hbad as [Hst | (body & Hbody & Hfalse)].
  - apply Z.eqb_neq in Hst. rewrite Hst in *. cbn in *. now split.
  - destruct (status_code r =? 200).
    + rewrite Hbody in *. rewrite Hfalse. cbn in *. now split.
    + cbn in *. now split.
Qed.

Lemma collect_revoked_assertions_sent cm w :
  sent (snd (collect_revoked_assertions cm w)) = sent w \/
  exists the_url,
    v2ish cm = true /\ revocation_list cm = Return (Some the_url) /\
    sent (snd (collect_revoked_assertions cm w))
    = (sent w ++ [json_request the_url])%list.
Proof.
  unfold collect_revoked_assertions, revocation_list.
  destruct (v2ish cm); [|now left]. unfold bind, lift.
  destruct (getitem (certificate_json cm) "badge") as [badge|]; cbn [obind];
    [|now left].
  destruct (getitem badge "issuer") as [issuer|]; cbn [obind]; [|now left].
  destruct (py_in "revocationList" issuer) as [[|]|]; cbn [obind];
    try (now left).
  destruct (getitem issuer "revocationList") as [u|]; cbn [obind]; [|now left].
  right. exists u. split; [reflexivity|]. split; [reflexivity|].
  pose proof (get_remote_json_sent u w) as Hs.
  destruct (get_remote_json u w) as [[revoked_json|e] w1]; cbn [snd] in *;
    [|exact Hs].
  destruct (truthy revoked_json); [|exact Hs].
  destruct (getitem revoked_json "revokedAssertions") as [ra|]; [|exact Hs].
  destruct (truthy ra); [|exact Hs].
  exact Hs.
Qed.

(** X15.  [get_issuer_info] first asks for the issuer profile, and sends
    at most one request more, for the revocation list: never for a
    certificate of a version before V2, and for a V2 or V2-alpha
    certificate only to the address the certificate names under its
    issuer. *)
Theorem get_issuer_info_requests cm w :
  exists rest,
    sent (snd (get_issuer_info cm w))
    = (sent w ++ json_request (PyStr (issuer_id cm)) :: rest)%list /\
    (rest = [] \/
     exists the_url,
       v2ish cm = true /\ revocation_list cm = Return (Some the_url) /\
       rest = [json_request the_url]).
Proof.
  unfold get_issuer_info. unfold bind at 1.
  pose proof (get_remote_json_sent (PyStr (issuer_id cm)) w) as Hs.
  destruct (get_remote_json (PyStr (issuer_id cm)) w) as [[issuer_json|e] w1];
    cbn [snd] in *; [|exists []; split; [exact Hs | now left]].
  destruct (truthy issuer_json); cbn [negb];
    [|exists []; split; [exact Hs | now left]].
  unfold bind, lift.
  destruct (collect_revoked_assertions_sent cm w1) as [H | (u & Hv & Hl & H)];
    destruct (collect_revoked_assertions cm w1) as [[ra|e] w2]; cbn [snd] in *.
  - exists []. split; [now rewrite H | now left].
  - exists []. split; [now rewrite H | now left].
  - exists [json_request u]. split; [rewrite H, Hs; now rewrite <- app_assoc|].
    right. now exists u.
  - exists [json_request u]. split; [rewrite H, Hs; now rewrite <- app_assoc|].
    right. now exists u.
Qed.








End Connectors.

(** ** Sample runs *)

(** Both providers answer with an error status: the fallback connector
    raises with the two failures, in order. *)
Lemma FallbackConnector_all_fail_witness :
  let e := Exn InvalidTransactionError "error looking up transaction_id=ab" in
  let fc := FallbackConnector bitcoin_mainnet [mainnet_BlockchainInfo; mainnet_Blockcypher] in
  exists w',
    FallbackConnector_init bitcoin_mainnet = Return fc /\
    Fallthrough sample_str_to_int sample_str_to_float "ab" (connectors_of fc)
      (world_of [status 500; status 404]) [e; e] w' /\
    lookup_tx sample_str_to_int sample_str_to_float fc "ab" (world_of [status 500; status 404])
    = (Raise (ExnList InvalidTransactionError [e; e]), w').
Proof.
  intros e fc. eexists.
  assert (F : Fallthrough sample_str_to_int sample_str_to_float "ab"
                (connectors_of fc) (world_of [status 500; status 404]) [e; e]
                (snd (lookup_tx sample_str_to_int sample_str_to_float
                    fc "ab" (world_of [status 500; status 404])))).
  { eapply Fallthrough_raise; [reflexivity|].
    eapply Fallthrough_raise; [reflexivity|].
    apply Fallthrough_nil. }
  split; [reflexivity|]. split; [exact F|].
  exact (proj1 (FallbackConnector_all_fail _ _ bitcoin_mainnet fc "ab" _ _ _
                  eq_refl F)).
Defined.

(** blockchain.info answers with an error status, a connector of the
    abstract class returns None, blockcypher has the transaction: its
    record is the result, and the etherscan connector behind it is not
    asked. *)
Lemma FallbackConnector_first_success_witness :
  let w := world_of [status 500; ok (PyDict []);
                     ok (sample_Blockcypher [sample_op_return "cafe"])] in
  let pre := [mainnet_BlockchainInfo;
              TransactionLookupConnector (Some "https://example.org/tx/%s")] in
  let r := ObjTransactionData
             {| signing_key := PyStr "1Issuer"; script := PyStr "cafe";
                date_time_utc := PyStr "2017-07-14T02:40:00Z";
                revoked_addresses := Some [] |} in
  exists w1 w2,
    Fallthrough sample_str_to_int sample_str_to_float "ab" pre w
      [Exn InvalidTransactionError "error looking up transaction_id=ab"] w1 /\
    lookup_tx sample_str_to_int sample_str_to_float mainnet_Blockcypher "ab" w1
    = (Return r, w2) /\
    obj_truthy r = true /\
    lookup_tx sample_str_to_int sample_str_to_float
      (FallbackConnector bitcoin_mainnet
         (pre ++ mainnet_Blockcypher :: [mainnet_Etherscan])) "ab" w
    = (Return r, w2) /\
    List.length (sent w2) = 3%nat.
Proof.
  intros w pre r.
  pose (w0 := warned (snd (lookup_tx sample_str_to_int sample_str_to_float
                             mainnet_BlockchainInfo "ab" w))).
  pose (w1 := snd (lookup_tx sample_str_to_int sample_str_to_float
                     (TransactionLookupConnector (Some "https://example.org/tx/%s"))
                     "ab" w0)).
  pose (w2 := snd (lookup_tx sample_str_to_int sample_str_to_float
                     mainnet_Blockcypher "ab" w1)).
  exists w1, w2.
  assert (F : Fallthrough sample_str_to_int sample_str_to_float "ab" pre w
                [Exn InvalidTransactionError "error looking up transaction_id=ab"]
                w1).
  { eapply Fallthrough_raise; [reflexivity|].
    eapply Fallthrough_empty; [reflexivity | reflexivity |].
    apply Fallthrough_nil. }
  assert (L : lookup_tx sample_str_to_int sample_str_to_float
                mainnet_Blockcypher "ab" w1 = (Return r, w2)) by reflexivity.
  split; [exact F|]. split; [exact L|]. split; [reflexivity|].
  split; [|reflexivity].
  exact (FallbackConnector_first_success _ _ bitcoin_mainnet pre
           mainnet_Blockcypher [mainnet_Etherscan] "ab" w _ _ r _
           F L eq_refl).
Defined.

(** The mock connector answers [True] for the mock chain and sends
    nothing. *)
Lemma MockConnector_lookup_witness :
  test_chain mockchain = true /\
  createTransactionLookupConnector mockchain None = Return (MockConnector mockchain) /\
  lookup_tx sample_str_to_int sample_str_to_float (MockConnector mockchain) "ab" (world_of [])
  = (Return ObjTrue, world_of []).
Proof.
  split; [reflexivity|].
  exact (MockConnector_lookup sample_str_to_int sample_str_to_float
           mockchain None "ab" (world_of []) eq_refl).
Defined.

(** What the mock connector returns is no transaction record. *)
Lemma MockConnector_returns_no_record :
  ~ exists t,
      fst (lookup_tx sample_str_to_int sample_str_to_float
          (MockConnector mockchain) "ab" (world_of []))
      = Return (ObjTransactionData t).
Proof. intros [t H]. discriminate H. Qed.

(** A lookup through etherscan: two requests, a record without revoked
    addresses. *)
Lemma Etherscan_revoked_addresses_witness :
  let r := ObjTransactionData
             {| signing_key := PyStr "0xIssuer"; script := PyStr "0xabcd";
                date_time_utc := PyInt 1500000000; revoked_addresses := None |} in
  exists w',
    lookup_tx sample_str_to_int sample_str_to_float
        mainnet_Etherscan "0xabc" (world_of [ok sample_Etherscan; ok sample_block])
    = (Return r, w') /\
    (account_based mainnet_Etherscan = true ->
     exists t, r = ObjTransactionData t /\ revoked_addresses t = None) /\
    (utxo_style mainnet_Etherscan = true ->
     exists t s, r = ObjTransactionData t /\ revoked_addresses t = Some s).
Proof.
  intros r. eexists.
  assert (H : lookup_tx sample_str_to_int sample_str_to_float mainnet_Etherscan "0xabc"
                (world_of [ok sample_Etherscan; ok sample_block])
              = (Return r, snd (lookup_tx sample_str_to_int sample_str_to_float
                  mainnet_Etherscan "0xabc"
                                  (world_of [ok sample_Etherscan; ok sample_block]))))
    by reflexivity.
  split; [exact H|].
  exact (Etherscan_revoked_addresses _ _ _ _ _ _ _ H).
Defined.

(** A fetch answered with 404. *)
Lemma fetch_tx_bad_status_witness :
  let u := "https://blockchain.info/rawtx/%s?cors=true" in
  let target := "https://blockchain.info/rawtx/ab?cors=true" in
  let r := {| status_code := 404; json := Raise (Exn JSONDecodeError EmptyString) |} in
  py_mod u "ab" = Return target /\
  status_code r <> 200 /\
  fetch_tx (Some u) "ab" (world_of [status 404])
  = (Raise (Exn InvalidTransactionError "error looking up transaction_id=ab"),
     logged "Error looking up transaction_id with url=%s, status_code=%d"
       [PyStr target; PyInt 404]
       (requested (fetch_request target) (world_of [status 404]))).
Proof.
  intros u target r.
  assert (Hs : status_code r <> 200) by (cbn; lia).
  split; [reflexivity|]. split; [exact Hs|].
  exact (fetch_tx_bad_status u "ab" (world_of [status 404]) target r
           eq_refl eq_refl Hs).
Defined.

(** Two fetches that differ in the address asked and in the status
    answered raise the same exception, so the exception carries neither;
    its class is the class of the failure for a missing script and of the
    failure of the fallback connector. *)
Lemma fetch_tx_failure_without_url_and_status :
  let e := Exn InvalidTransactionError "error looking up transaction_id=ab" in
  fst (fetch_tx (Some "https://blockchain.info/rawtx/%s?cors=true") "ab"
         (world_of [status 404])) = Raise e /\
  fst (fetch_tx (Some "https://testnet.blockchain.info/rawtx/%s?cors=true") "ab"
         (world_of [status 500])) = Raise e /\
  fst (parse_utxo sample_str_to_int sample_str_to_float
      BlockchainInfo (sample_BlockchainInfo [sample_paid]) (world_of []))
  = Raise (Exn InvalidTransactionError missing_script) /\
  fst (lookup_tx sample_str_to_int sample_str_to_float
      (FallbackConnector bitcoin_mainnet [mainnet_BlockchainInfo; mainnet_Blockcypher])
         "ab" (world_of [status 404; status 500]))
  = Raise (ExnList InvalidTransactionError [e; e]).
Proof. repeat split. Qed.

(** Responses without an output of value zero, one for each naming. *)
Lemma parse_tx_missing_script_witness :
  (transaction_response BlockchainInfo (sample_BlockchainInfo [sample_paid])
     (PyInt 1500000000) (PyStr "1Issuer") [sample_paid] /\
   forallb (value_output sample_str_to_int sample_str_to_float BlockchainInfo)
     [sample_paid] = true /\
   parse_utxo sample_str_to_int sample_str_to_float
       BlockchainInfo (sample_BlockchainInfo [sample_paid]) (world_of [])
   = (Raise (Exn InvalidTransactionError missing_script),
      logged "transaction response is missing op_return script: %s"
        [sample_BlockchainInfo [sample_paid]] (world_of []))) /\
  (transaction_response Blockcypher (sample_Blockcypher [sample_paid; sample_paid])
     (PyStr "2017-07-14T02:40:00Z") (PyStr "1Issuer") [sample_paid; sample_paid] /\
   forallb (value_output sample_str_to_int sample_str_to_float Blockcypher)
     [sample_paid; sample_paid] = true /\
   parse_utxo sample_str_to_int sample_str_to_float
       Blockcypher (sample_Blockcypher [sample_paid; sample_paid]) (world_of [])
   = (Raise (Exn InvalidTransactionError missing_script),
      logged "transaction response is missing op_return script: %s"
        [sample_Blockcypher [sample_paid; sample_paid]] (world_of []))).
Proof.
  assert (H1 : transaction_response BlockchainInfo (sample_BlockchainInfo [sample_paid])
                 (PyInt 1500000000) (PyStr "1Issuer") [sample_paid])
    by (repeat split).
  assert (H2 : transaction_response Blockcypher
                 (sample_Blockcypher [sample_paid; sample_paid])
                 (PyStr "2017-07-14T02:40:00Z") (PyStr "1Issuer")
                 [sample_paid; sample_paid])
    by (repeat split).
  split.
  - split; [exact H1|]. split; [reflexivity|].
    exact (parse_tx_missing_script _ _ BlockchainInfo _ _ _ _ (world_of [])
             H1 eq_refl).
  - split; [exact H2|]. split; [reflexivity|].
    exact (parse_tx_missing_script _ _ Blockcypher _ _ _ _ (world_of [])
             H2 eq_refl).
Defined.

(** Responses with one output of value zero between two others, one for
    each naming. *)
Lemma parse_tx_one_zero_value_output_witness :
  let outs := [sample_paid; sample_op_return "cafe"; sample_paid] in
  (transaction_response BlockchainInfo (sample_BlockchainInfo outs)
     (PyInt 1500000000) (PyStr "1Issuer")
     ([sample_paid] ++ sample_op_return "cafe" :: [sample_paid]) /\
   zero_value sample_str_to_int sample_str_to_float BlockchainInfo
     (sample_op_return "cafe") = Return true /\
   payload BlockchainInfo (sample_op_return "cafe") = Return (PyStr "cafe") /\
   exists revoked,
     parse_utxo sample_str_to_int sample_str_to_float
         BlockchainInfo (sample_BlockchainInfo outs) (world_of [])
     = (Return (ObjTransactionData
                  {| signing_key := PyStr "1Issuer"; script := PyStr "cafe";
                     date_time_utc := PyInt 1500000000;
                     revoked_addresses := Some revoked |}), world_of [])) /\
  (transaction_response Blockcypher (sample_Blockcypher outs)
     (PyStr "2017-07-14T02:40:00Z") (PyStr "1Issuer")
     ([sample_paid] ++ sample_op_return "cafe" :: [sample_paid]) /\
   zero_value sample_str_to_int sample_str_to_float Blockcypher
     (sample_op_return "cafe") = Return true /\
   payload Blockcypher (sample_op_return "cafe") = Return (PyStr "cafe") /\
   exists revoked,
     parse_utxo sample_str_to_int sample_str_to_float
         Blockcypher (sample_Blockcypher outs) (world_of [])
     = (Return (ObjTransactionData
                  {| signing_key := PyStr "1Issuer"; script := PyStr "cafe";
                     date_time_utc := PyStr "2017-07-14T02:40:00Z";
                     revoked_addresses := Some revoked |}), world_of [])).
Proof.
  intros outs.
  assert (H1 : transaction_response BlockchainInfo (sample_BlockchainInfo outs)
                 (PyInt 1500000000) (PyStr "1Issuer")
                 ([sample_paid] ++ sample_op_return "cafe" :: [sample_paid]))
    by (repeat split).
  assert (H2 : transaction_response Blockcypher (sample_Blockcypher outs)
                 (PyStr "2017-07-14T02:40:00Z") (PyStr "1Issuer")
                 ([sample_paid] ++ sample_op_return "cafe" :: [sample_paid]))
    by (repeat split).
  split.
  - split; [exact H1|]. split; [reflexivity|]. split; [reflexivity|].
    exact (parse_tx_one_zero_value_output _ _ BlockchainInfo _ _ _
             [sample_paid] (sample_op_return "cafe") [sample_paid]
             (PyStr "cafe") (world_of []) H1 eq_refl eq_refl eq_refl eq_refl).
  - split; [exact H2|]. split; [reflexivity|]. split; [reflexivity|].
    exact (parse_tx_one_zero_value_output _ _ Blockcypher _ _ _
             [sample_paid] (sample_op_return "cafe") [sample_paid]
             (PyStr "cafe") (world_of []) H2 eq_refl eq_refl eq_refl eq_refl).
Defined.

(** A response whose one output of value zero has an empty payload: both
    adapters raise and return no record. *)
Lemma parse_tx_empty_payload :
  zero_value sample_str_to_int sample_str_to_float BlockchainInfo
    (sample_op_return EmptyString) = Return true /\
  payload BlockchainInfo (sample_op_return EmptyString) = Return (PyStr EmptyString) /\
  fst (parse_utxo sample_str_to_int sample_str_to_float
      BlockchainInfo (sample_BlockchainInfo [sample_op_return EmptyString]) (world_of []))
  = Raise (Exn InvalidTransactionError missing_script) /\
  zero_value sample_str_to_int sample_str_to_float Blockcypher
    (sample_op_return EmptyString) = Return true /\
  payload Blockcypher (sample_op_return EmptyString) = Return (PyStr EmptyString) /\
  fst (parse_utxo sample_str_to_int sample_str_to_float
      Blockcypher (sample_Blockcypher [sample_op_return EmptyString]) (world_of []))
  = Raise (Exn InvalidTransactionError missing_script).
Proof. repeat split. Qed.



(** A revocation list answered with 404, for a profile with [@context]. *)
Lemma get_issuer_info_revocation_list_bad_status_witness :
  let cm := sample_certificate V2 [("revocationList", sample_revocation_list)] in
  let w := world_of [ok sample_profile_V2; status 404] in
  let r := {| status_code := 404; json := Raise (Exn JSONDecodeError EmptyString) |} in
  let info := {| issuer_keys :=
                   [{| public_key := PyStr "1Issuer";
                       created := Some (PyStr "2017-06-29T14:48:03Z");
                       expires := Some PyNone; revoked := Some PyNone |}];
                 revocation_keys := None; revoked_assertions := Some [] |} in
  exists w1,
    v2ish cm = true /\
    get_remote_json (PyStr (issuer_id cm)) w = (Return sample_profile_V2, w1) /\
    revocation_list cm = Return (Some sample_revocation_list) /\
    remote w1 (List.length (sent w1)) (json_request sample_revocation_list) = Return r /\
    status_code r <> 200 /\
    get_issuer_info sample_PUBKEY_PREFIX cm w =
      (Return info,
       logged "Error looking up url=%s, status_code=%d"
         [sample_revocation_list; PyInt 404]
         (requested (json_request sample_revocation_list) w1)).
Proof.
  intros cm w r info. eexists.
  assert (Hj : get_remote_json (PyStr (issuer_id cm)) w
               = (Return sample_profile_V2,
                  snd (get_remote_json (PyStr (issuer_id cm)) w))) by reflexivity.
  assert (Hs : status_code r <> 200) by (cbn; lia).
  split; [reflexivity|]. split; [exact Hj|]. split; [reflexivity|].
  split; [reflexivity|]. split; [exact Hs|].
  exact (proj1 (get_issuer_info_revocation_list_bad_status sample_PUBKEY_PREFIX
                  cm w sample_profile_V2 _ sample_revocation_list r
                  eq_refl Hj eq_refl eq_refl eq_refl Hs)).
Defined.

(** A revocation list whose fetch fails with an exception of
    [requests.get]: the exception leaves [get_issuer_info]. *)
Lemma get_issuer_info_revocation_list_raises :
  fst (get_issuer_info sample_PUBKEY_PREFIX
      (sample_certificate V2 [("revocationList", sample_revocation_list)])
         (world_of [ok sample_profile_V2; Raise (Exn RequestException "timed out")]))
  = Raise (Exn RequestException "timed out").
Proof. reflexivity. Qed.

(** A legacy profile with two issuer keys and two revocation keys, for a
    V1 certificate and for a V2 certificate with a revoked assertion: the
    first key of each list is taken. *)
Lemma get_issuer_info_V1_witness :
  let issuer := {| public_key := PyStr "1Issuer"; created := None;
                   expires := None; revoked := None |} in
  let revoke := {| public_key := PyStr "1Revoke"; created := None;
                   expires := None; revoked := None |} in
  let first := PyDict [("date", PyStr "2017-01-01"); ("key", PyStr "1Issuer")] in
  let others := [PyDict [("date", PyStr "2016-05-01"); ("key", PyStr "1Former")]] in
  let rfirst := PyDict [("date", PyStr "2017-01-01"); ("key", PyStr "1Revoke")] in
  let rothers := [PyDict [("date", PyStr "2016-05-01"); ("key", PyStr "1Retired")]] in
  let cm1 := sample_certificate V1_2 [] in
  let cm2 := sample_certificate V2 [("revocationList", sample_revocation_list)] in
  let w1 := world_of [ok sample_profile_V1_keys] in
  let w2 := world_of [ok sample_profile_V1_keys; ok sample_revoked] in
  py_in "@context" sample_profile_V1_keys = Return false /\
  getitem sample_profile_V1_keys "issuerKeys" = Return (PyList (first :: others)) /\
  getitem sample_profile_V1_keys "revocationKeys"
  = Return (PyList (rfirst :: rothers)) /\
  fst (get_issuer_info sample_PUBKEY_PREFIX cm1 w1)
  = Return {| issuer_keys := [issuer]; revocation_keys := Some [revoke];
              revoked_assertions := None |} /\
  fst (get_issuer_info sample_PUBKEY_PREFIX cm2 w2)
  = Return {| issuer_keys := [issuer]; revocation_keys := None;
              revoked_assertions := Some [PyStr "urn:uuid:93019408"] |}.
Proof.
  intros issuer revoke first others rfirst rothers cm1 cm2 w1 w2.
  assert (Hj1 : get_remote_json (PyStr (issuer_id cm1)) w1
                = (Return sample_profile_V1_keys,
                   snd (get_remote_json (PyStr (issuer_id cm1)) w1)))
    by reflexivity.
  assert (Hj2 : get_remote_json (PyStr (issuer_id cm2)) w2
                = (Return sample_profile_V1_keys,
                   snd (get_remote_json (PyStr (issuer_id cm2)) w2)))
    by reflexivity.
  assert (Hr1 : collect_revoked_assertions cm1
                  (snd (get_remote_json (PyStr (issuer_id cm1)) w1))
                = (Return [], snd (get_remote_json (PyStr (issuer_id cm1)) w1)))
    by reflexivity.
  assert (Hr2 : collect_revoked_assertions cm2
                  (snd (get_remote_json (PyStr (issuer_id cm2)) w2))
                = (Return [PyStr "urn:uuid:93019408"],
                   snd (collect_revoked_assertions cm2
                          (snd (get_remote_json (PyStr (issuer_id cm2)) w2)))))
    by reflexivity.
  split; [reflexivity|]. split; [reflexivity|]. split; [reflexivity|]. split.
  - rewrite (proj2 (get_issuer_info_V1 sample_PUBKEY_PREFIX cm1 w1
                      sample_profile_V1_keys _ [] _ first others (PyStr "1Issuer")
                      Hj1 eq_refl Hr1 eq_refl eq_refl eq_refl)
               eq_refl rfirst rothers (PyStr "1Revoke") eq_refl eq_refl).
    reflexivity.
  - assert (Hne : [PyStr "urn:uuid:93019408"] <> []) by discriminate.
    rewrite (proj1 (get_issuer_info_V1 sample_PUBKEY_PREFIX cm2 w2
                      sample_profile_V1_keys _ [PyStr "urn:uuid:93019408"] _
                      first others (PyStr "1Issuer")
                      Hj2 eq_refl Hr2 eq_refl eq_refl eq_refl) Hne).
    reflexivity.
Defined.

(** ** Further sample runs *)

(** The factory on ropsten, with a token in the options, and on bitcoin
    testnet. *)
Lemma factory_connector_class_witness :
  let options := Some [("etherscan_api_token", PyStr "KEY")] in
  let e := EtherscanConnector
             "https://ropsten.etherscan.io/api?module=proxy&action=eth_getTransactionByHash&apikey=KEY&txhash=%s"
             "https://ropsten.etherscan.io/api?module=block&action=getblockreward&apikey=KEY&blockno=%s" in
  createTransactionLookupConnector ethereum_ropsten options = Return e /\
  (exists u ts, e = EtherscanConnector u ts) /\
  exists f,
    createTransactionLookupConnector bitcoin_testnet options = Return f /\
    exists u1 u2,
      f = FallbackConnector bitcoin_testnet
            [BlockchainInfoConnector u1; BlockcypherConnector u2].
Proof.
  intros options e. split; [reflexivity|]. split.
  - exact (factory_connector_class ethereum_ropsten options e eq_refl).
  - eexists. split; [reflexivity|].
    exact (factory_connector_class bitcoin_testnet options _ eq_refl).
Defined.

(** A fetch answered with status 503: one request, one error record. *)
Lemma fetch_tx_one_request_witness :
  let u := "https://blockchain.info/rawtx/%s?cors=true" in
  let target := "https://blockchain.info/rawtx/ab?cors=true" in
  py_mod u "ab" = Return target /\
  sent (snd (fetch_tx (Some u) "ab" (world_of [status 503])))
  = [fetch_request target] /\
  fst (fetch_tx (Some u) "ab" (world_of [status 503]))
  = Raise (Exn InvalidTransactionError "error looking up transaction_id=ab") /\
  logs (snd (fetch_tx (Some u) "ab" (world_of [status 503])))
  = [{| level := ERROR;
        log_msg := "Error looking up transaction_id with url=%s, status_code=%d";
        log_args := [PyStr target; PyInt 503] |}].
Proof.
  intros u target. split; [reflexivity|].
  exact (fetch_tx_one_request u "ab" target (world_of [status 503]) eq_refl).
Defined.

(** One request each, to the testnet addresses, here with an answer of
    status 503. *)
Lemma utxo_lookup_request_witness :
  let a := BlockchainInfoConnector "https://testnet.blockchain.info/rawtx/%s?cors=true" in
  let b := BlockcypherConnector "http://api.blockcypher.com/v1/btc/test3/txs/%s?limit=100" in
  BlockchainInfoConnector_init bitcoin_testnet = Return a /\
  BlockcypherConnector_init bitcoin_testnet = Return b /\
  sent (snd (lookup_tx sample_str_to_int sample_str_to_float a "ab" (world_of [status 503])))
  = [fetch_request "https://testnet.blockchain.info/rawtx/ab?cors=true"] /\
  sent (snd (lookup_tx sample_str_to_int sample_str_to_float b "ab" (world_of [status 503])))
  = [fetch_request "http://api.blockcypher.com/v1/btc/test3/txs/ab?limit=100"].
Proof.
  intros a b. split; [reflexivity|]. split; [reflexivity|]. split.
  - exact (proj1 (utxo_lookup_request sample_str_to_int sample_str_to_float
                    bitcoin_testnet a "ab" (world_of [status 503])) eq_refl).
  - exact (proj2 (utxo_lookup_request sample_str_to_int sample_str_to_float
                    bitcoin_testnet b "ab" (world_of [status 503])) eq_refl).
Defined.

(** blockchain.info is down, blockcypher has the transaction: two
    requests. *)
Lemma FallbackConnector_requests_witness :
  let w := world_of [status 500; ok (sample_Blockcypher [sample_op_return "cafe"])] in
  FallbackConnector_init bitcoin_mainnet
  = Return (FallbackConnector bitcoin_mainnet [mainnet_BlockchainInfo; mainnet_Blockcypher]) /\
  sent (snd (lookup_tx sample_str_to_int sample_str_to_float
               (FallbackConnector bitcoin_mainnet
                  [mainnet_BlockchainInfo; mainnet_Blockcypher]) "ab" w))
  = [fetch_request "https://blockchain.info/rawtx/ab?cors=true";
     fetch_request "https://api.blockcypher.com/v1/btc/main/txs/ab?limit=100"].
Proof.
  intros w. split; [reflexivity|].
  exact (FallbackConnector_requests sample_str_to_int sample_str_to_float
           bitcoin_mainnet mainnet_BlockchainInfo mainnet_Blockcypher "ab" w
           eq_refl).
Defined.


(** Two outputs of value zero: the payload of the second is the script. *)
Lemma parse_tx_last_zero_value_output_witness :
  let pre := [sample_op_return "beef"; sample_paid] in
  let outs := (pre ++ sample_op_return "cafe" :: [sample_paid])%list in
  transaction_response BlockchainInfo (sample_BlockchainInfo outs)
    (PyInt 1500000000) (PyStr "1Issuer") outs /\
  forallb (readable_output sample_str_to_int sample_str_to_float BlockchainInfo) pre
  = true /\
  data_output sample_str_to_int sample_str_to_float BlockchainInfo
    (sample_op_return "cafe") = Some (PyStr "cafe") /\
  parse_utxo sample_str_to_int sample_str_to_float BlockchainInfo (sample_BlockchainInfo outs) (world_of [])
  = (Return (ObjTransactionData
               {| signing_key := PyStr "1Issuer"; script := PyStr "cafe";
                  date_time_utc := PyInt 1500000000;
                  revoked_addresses :=
                    Some [PyStr "1Recipient"; PyStr "1Recipient"] |}),
     world_of []).
Proof.
  intros pre outs.
  assert (H : transaction_response BlockchainInfo (sample_BlockchainInfo outs)
                (PyInt 1500000000) (PyStr "1Issuer") outs) by (repeat split).
  split; [exact H|]. split; [reflexivity|]. split; [reflexivity|].
  exact (parse_tx_last_zero_value_output sample_str_to_int sample_str_to_float
           BlockchainInfo _ _ _ pre (sample_op_return "cafe") [sample_paid]
           (PyStr "cafe") (world_of []) H eq_refl eq_refl eq_refl).
Defined.

(** The revoked addresses of a blockcypher transaction. *)
Lemma parse_tx_revoked_addresses_witness :
  let outs := [sample_paid; sample_op_return "cafe"] in
  let t := {| signing_key := PyStr "1Issuer"; script := PyStr "cafe";
              date_time_utc := PyStr "2017-07-14T02:40:00Z";
              revoked_addresses := Some [PyStr "1Recipient"] |} in
  transaction_response Blockcypher (sample_Blockcypher outs)
    (PyStr "2017-07-14T02:40:00Z") (PyStr "1Issuer") outs /\
  parse_utxo sample_str_to_int sample_str_to_float Blockcypher (sample_Blockcypher outs) (world_of [])
  = (Return (ObjTransactionData t), world_of []) /\
  exists revoked,
    revoked_addresses t = Some revoked /\
    forall a,
      In a revoked <->
      exists o,
        In o outs /\
        value_output sample_str_to_int sample_str_to_float Blockcypher o = true /\
        spent_address Blockcypher o = Return (Some a).
Proof.
  intros outs t.
  assert (H : transaction_response Blockcypher (sample_Blockcypher outs)
                (PyStr "2017-07-14T02:40:00Z") (PyStr "1Issuer") outs)
    by (repeat split).
  assert (R : parse_utxo sample_str_to_int sample_str_to_float Blockcypher (sample_Blockcypher outs) (world_of [])
              = (Return (ObjTransactionData t), world_of [])) by reflexivity.
  split; [exact H|]. split; [exact R|].
  exact (parse_tx_revoked_addresses sample_str_to_int sample_str_to_float
           Blockcypher _ _ _ outs (world_of []) t (world_of []) H eq_refl R).
Defined.

(** A transaction without input data, and one that is not confirmed. *)
Lemma Etherscan_parse_tx_refused_witness :
  Etherscan_response sample_Etherscan_no_input
    (PyStr "0xIssuer") (PyStr EmptyString) (PyStr "0x1b4") /\
  Etherscan_response sample_Etherscan_pending
    (PyStr "0xIssuer") (PyStr "0xabcd") PyNone /\
  fst (Etherscan_parse_tx sample_str_to_int "%s"
         sample_Etherscan_no_input (world_of []))
  = Raise (Exn InvalidTransactionError "transaction response is missing input") /\
  fst (Etherscan_parse_tx sample_str_to_int "%s"
         sample_Etherscan_pending (world_of []))
  = Raise (Exn InvalidTransactionError "transaction is not yet confirmed").
Proof.
  assert (H1 : Etherscan_response sample_Etherscan_no_input
                 (PyStr "0xIssuer") (PyStr EmptyString) (PyStr "0x1b4"))
    by (eexists; repeat split).
  assert (H2 : Etherscan_response sample_Etherscan_pending
                 (PyStr "0xIssuer") (PyStr "0xabcd") PyNone)
    by (eexists; repeat split).
  split; [exact H1|]. split; [exact H2|]. split.
  - rewrite (proj1 (Etherscan_parse_tx_refused sample_str_to_int "%s" _ _ _ _ (world_of []) H1) eq_refl).
    reflexivity.
  - rewrite (proj2 (Etherscan_parse_tx_refused sample_str_to_int "%s" _ _ _ _ (world_of []) H2)
               eq_refl eq_refl).
    reflexivity.
Defined.

(** An issuer profile answered with 404, for a certificate that names a
    revocation list. *)
Lemma get_issuer_info_no_profile_witness :
  let cm := sample_certificate V2 [("revocationList", sample_revocation_list)] in
  let w := world_of [status 404; ok sample_revoked] in
  let r := {| status_code := 404; json := Raise (Exn JSONDecodeError EmptyString) |} in
  remote w (List.length (sent w)) (json_request (PyStr (issuer_id cm))) = Return r /\
  status_code r <> 200 /\
  fst (get_issuer_info sample_PUBKEY_PREFIX cm w)
  = Raise (Exn Exception
             "Issuer URL returned no results https://issuer.example/profile.json") /\
  sent (snd (get_issuer_info sample_PUBKEY_PREFIX cm w))
  = [json_request (PyStr "https://issuer.example/profile.json")].
Proof.
  intros cm w r.
  assert (Hs : status_code r <> 200) by (cbn; lia).
  split; [reflexivity|]. split; [exact Hs|].
  exact (get_issuer_info_no_profile sample_PUBKEY_PREFIX cm w r eq_refl
           (or_introl Hs)).
Defined.



